(** * react-file-viewer: the embedded viewer (src/App.tsx) and the
      stand-alone uploader, embedded in Rocq.

    JavaScript strings are sequences of UTF-16 code units; they are modelled
    as lists of [N].  The two regular-expression passes of [renderDocx] are
    run by a small backtracking matcher for the shape of pattern the source
    uses (a sequence of single-character atoms, each taken once, lazily
    starred, or greedily repeated at least [n] times). *)

From Stdlib Require Import Strings.String Strings.Ascii NArith.
From stdpp Require Import base option list gmap.

Local Open Scope N_scope.
Local Open Scope list_scope.

(** ** JavaScript strings *)

Module JS.

Abbreviation jsstring := (list N).

(** An ASCII literal of the source as a list of code units. *)
Definition lit (s : string) : jsstring :=
  (fun a => N_of_ascii a) <$> list_ascii_of_string s.
Arguments lit : simpl never.

Definition LT_ : N := 60.          (* < *)
Definition GT_ : N := 62.          (* > *)
Definition SLASH : N := 47.        (* / *)
Definition LOWER_P : N := 112.     (* p *)
Definition UNDERSCORE : N := 95.   (* _ *)
Definition DQUOTE : N := 34.
Definition DOT : N := 46.          (* . *)

(** ECMAScript LineTerminator: LF, CR, LS, PS.  The atom [.] of a pattern
    without the [s] flag matches every code unit but these. *)
Definition is_line_terminator (c : N) : bool :=
  (c =? 10) || (c =? 13) || (c =? 8232) || (c =? 8233).

(** [String.prototype.repeat] on a one-character string. *)
Definition repeat_char (c : N) (count : nat) : jsstring := replicate count c.

(** [String.prototype.toLowerCase] and [toUpperCase], on the letters A-Z and
    a-z; other code units are left as they are.  The source only compares
    the lowered extension with ASCII constants and only upper-cases one of
    those constants, and the characters outside ASCII that JavaScript
    lowers to an ASCII letter (U+212A to k, U+0130 to i and U+0307) yield
    no letter of these constants. *)
Definition lower_unit (c : N) : N :=
  if (65 <=? c) && (c <=? 90) then c + 32 else c.
Definition upper_unit (c : N) : N :=
  if (97 <=? c) && (c <=? 122) then c - 32 else c.
Definition toLowerCase (s : jsstring) : jsstring := lower_unit <$> s.
Definition toUpperCase (s : jsstring) : jsstring := upper_unit <$> s.

(** [s.split(sep)] for a one-character separator: never empty. *)
Fixpoint split (sep : N) (s : jsstring) : list jsstring :=
  match s with
  | [] => [[]]
  | c :: s' =>
      if c =? sep then [] :: split sep s'
      else match split sep s' with
           | piece :: pieces => (c :: piece) :: pieces
           | [] => [[c]]
           end
  end.

(** [s.startsWith(p)] *)
Fixpoint starts_with (p s : jsstring) : bool :=
  match p, s with
  | [], _ => true
  | a :: p', c :: s' => (c =? a) && starts_with p' s'
  | _ :: _, [] => false
  end.

(** [s.indexOf(p)], with [None] for -1. *)
Fixpoint index_of (p s : jsstring) : option nat :=
  if starts_with p s then Some O
  else match s with
       | [] => None
       | _ :: s' => S <$> index_of p s'
       end.

(** [ext] is the extension of the file name [name]: what follows its last
    dot, or the whole name when it has no dot. *)
Definition extension_of (name ext : jsstring) : Prop :=
  (DOT ∉ ext) /\ (name = ext \/ exists base, name = base ++ DOT :: ext).

(** [Array.prototype.pop]'s return value: the last element, if any. *)
Definition pop {A} (l : list A) : option A := last l.

(** What a [try] block can end with: a value or a thrown one.  The [catch]
    clauses of the source only tell an [Error] (and read its message) from
    anything else. *)
Inductive thrown : Type :=
| ErrorObject (message : jsstring)
| OtherValue.

Inductive result (A : Type) : Type :=
| Ok (a : A)
| Throw (e : thrown).
Arguments Ok {A} a.
Arguments Throw {A} e.

End JS.
Import JS.

(** ** Regular expressions *)

Module RegExp.

(** A single-character matcher. *)
Inductive atom : Type :=
| Chr (c : N)        (* a literal character *)
| AnyChar.           (* [.] *)

Definition atom_matches (a : atom) (c : N) : bool :=
  match a with
  | Chr c' => c =? c'
  | AnyChar => negb (is_line_terminator c)
  end.

Inductive node : Type :=
| One (a : atom)                 (* a *)
| LazyStar (a : atom)            (* a*?  *)
| AtLeast (min : nat) (a : atom) (* a{min,}, greedy; a+ is a{1,} *).

Definition regex : Type := list node.

(** [a*? k]: try the continuation first, take one more character only when
    it fails. *)
Fixpoint lazy_star (a : atom) (k : jsstring -> option nat) (s : jsstring)
  : option nat :=
  match k s with
  | Some n => Some n
  | None =>
      match s with
      | c :: s' => if atom_matches a c then S <$> lazy_star a k s' else None
      | [] => None
      end
  end.

(** [a{need,} k], greedy: take characters while they match, fall back to
    the continuation once [need] of them have been taken. *)
Fixpoint at_least (a : atom) (k : jsstring -> option nat) (need : nat)
  (s : jsstring) : option nat :=
  let stop := match need with O => k s | S _ => None end in
  match s with
  | c :: s' =>
      if atom_matches a c then
        match at_least a k (pred need) s' with
        | Some n => Some (S n)
        | None => stop
        end
      else stop
  | [] => stop
  end.

(** The length of the match of [r] that starts at the beginning of [s], as
    a backtracking matcher finds it. *)
Fixpoint exec_at (r : regex) (s : jsstring) : option nat :=
  match r with
  | [] => Some O
  | One a :: r' =>
      match s with
      | c :: s' => if atom_matches a c then S <$> exec_at r' s' else None
      | [] => None
      end
  | LazyStar a :: r' => lazy_star a (exec_at r') s
  | AtLeast min a :: r' => at_least a (exec_at r') min s
  end.

(** [r.test(s)] for a pattern without the [g] flag: is there a match
    starting anywhere in [s]? *)
Fixpoint test (r : regex) (s : jsstring) : bool :=
  match exec_at r s with
  | Some _ => true
  | None => match s with [] => false | _ :: s' => test r s' end
  end.

(** [s.replace(r, replacer)] for a pattern with the [g] flag and a function
    replacer.  The replacer is given the matched substring (its first
    argument; the source's replacers take no other).  [skip] counts the
    characters of the current match still to be passed over, that is the
    distance to [lastIndex]; an empty match advances by one character. *)
Fixpoint replace_from (r : regex) (replacer : jsstring -> jsstring)
  (skip : nat) (s : jsstring) : jsstring :=
  match skip with
  | S skip' =>
      match s with
      | [] => []
      | _ :: s' => replace_from r replacer skip' s'
      end
  | O =>
      match exec_at r s with
      | Some n =>
          replacer (take n s) ++
          match s with
          | [] => []
          | c :: s' =>
              match n with
              | O => c :: replace_from r replacer O s'
              | S n' => replace_from r replacer n' s'
              end
          end
      | None =>
          match s with
          | [] => []
          | c :: s' => c :: replace_from r replacer O s'
          end
      end
  end.

Definition replace (r : regex) (replacer : jsstring -> jsstring)
  (s : jsstring) : jsstring :=
  replace_from r replacer O s.

End RegExp.
Import RegExp.

(** ** The DOCX post-processing of [renderDocx] (src/App.tsx) *)

Module Docx.

(** [/_+/] *)
Definition underscore_plus : regex := [AtLeast 1 (Chr UNDERSCORE)].

(** [/<p>(.*?)<\/p>/g].  The capture group is not modelled: the replacer of
    the source reads its first argument only, which is the whole match. *)
Definition paragraph : regex :=
  [One (Chr LT_); One (Chr LOWER_P); One (Chr GT_);
   LazyStar AnyChar;
   One (Chr LT_); One (Chr SLASH); One (Chr LOWER_P); One (Chr GT_)].

(** [/_{3,}/g] *)
Definition underscore_run : regex := [AtLeast 3 (Chr UNDERSCORE)].

Definition span_open : jsstring :=
  lit "<span class=" ++ [DQUOTE] ++ lit "underscore-field" ++ [DQUOTE] ++ lit ">".
Definition span_close : jsstring := lit "</span>".

(** The inner replacer:
    [(underscores) => `<span class="underscore-field">${'_'.repeat(underscores.length)}</span>`] *)
Definition wrap_underscores (underscores : jsstring) : jsstring :=
  span_open ++ repeat_char UNDERSCORE (length underscores) ++ span_close.

(** [content.replace(/_{3,}/g, ...)] *)
Definition processedContent (content : jsstring) : jsstring :=
  replace underscore_run wrap_underscores content.

(** The outer replacer: [(content) => `<p>${processedContent}</p>`]. *)
Definition wrap_paragraph (content : jsstring) : jsstring :=
  lit "<p>" ++ processedContent content ++ lit "</p>".

(** [const hasUnderscores = /_+/.test(textResult.value)] *)
Definition hasUnderscores (textResult : jsstring) : bool :=
  test underscore_plus textResult.

(** The value of [processedHtml] when [renderDocx] stores it. *)
Definition processedHtml (htmlResult textResult : jsstring) : jsstring :=
  if hasUnderscores textResult
  then replace paragraph wrap_paragraph htmlResult
  else htmlResult.

(** *** Vocabulary of the statements about the two passes *)

(** The length of the run of underscores at the beginning of [s]. *)
Fixpoint leading_underscores (s : jsstring) : nat :=
  match s with
  | c :: s' => if c =? UNDERSCORE then S (leading_underscores s') else O
  | [] => O
  end.

Definition underscores (n : nat) : jsstring := repeat_char UNDERSCORE n.

(** What a maximal run of [n] underscores is expected to become. *)
Definition field (n : nat) : jsstring :=
  if (3 <=? n)%nat then span_open ++ underscores n ++ span_close
  else underscores n.

Definition no_line_terminator (s : jsstring) : bool :=
  forallb (fun c => negb (is_line_terminator c)) s.

(** The part of [paragraph] after the lazy star. *)
Definition close_tag : regex :=
  [One (Chr LT_); One (Chr SLASH); One (Chr LOWER_P); One (Chr GT_)].

Definition p_open : jsstring := lit "<p>".
Definition p_close : jsstring := lit "</p>".

End Docx.
Import Docx.


(** ** The libraries and browser functions the two components call *)

Module Lib.

(** [image => image.read("base64")...] is the only option either caller
    sets. *)
Inductive mammoth_options : Type :=
| no_options
| convertImage_imgElement.

(** What [XLSX.read] returns, as far as the source reads it: the sheet
    names in workbook order and an object from sheet name to worksheet. *)
Record WorkBook (WorkSheet : Type) : Type := {
  SheetNames : list jsstring;
  Sheets : gmap jsstring WorkSheet
}.
Arguments SheetNames {WorkSheet} w.
Arguments Sheets {WorkSheet} w.

(** The calls into mammoth, SheetJS and the browser.  A call that returns a
    promise is given by how the promise settles. *)
Class Libraries : Type := {
  WorkSheet : Type;
  atob : jsstring -> result jsstring;
  mammoth_convertToHtml : mammoth_options -> list N -> result jsstring;
  mammoth_extractRawText : list N -> result jsstring;
  XLSX_read : list N -> result (WorkBook WorkSheet);
  (** [workbook.Sheets[sheetName]] is [undefined] when the key is absent:
      the converter is given an [option]. *)
  XLSX_utils_sheet_to_html : option WorkSheet -> result jsstring;
  (** The object URL the browser hands out for the [n]-th blob of the page. *)
  blob_url : nat -> jsstring
}.

(** An entry of the sheet list: [{ name: sheetName, html: htmlTable }]. *)
Record sheet : Type := { name : jsstring; html : jsstring }.

(** [array.map(f)] for a callback that can throw. *)
Fixpoint Array_map {A B} (f : A -> result B) (l : list A) : result (list B) :=
  match l with
  | [] => Ok []
  | x :: l' =>
      match f x with
      | Throw e => Throw e
      | Ok y =>
          match Array_map f l' with
          | Throw e => Throw e
          | Ok ys => Ok (y :: ys)
          end
      end
  end.

(** [workbook.SheetNames.map(sheetName => { const worksheet =
    workbook.Sheets[sheetName]; const htmlTable =
    XLSX.utils.sheet_to_html(worksheet); return { name: sheetName, html:
    htmlTable }; })], the same expression in both components. *)
Definition workbook_sheets `{Libraries} (workbook : WorkBook WorkSheet)
  : result (list sheet) :=
  Array_map
    (fun sheetName =>
       let worksheet := Sheets workbook !! sheetName in
       match XLSX_utils_sheet_to_html worksheet with
       | Ok htmlTable => Ok {| name := sheetName; html := htmlTable |}
       | Throw e => Throw e
       end)
    (SheetNames workbook).

(** [new Uint8Array(byteNumbers)]: every element is taken modulo 256. *)
Definition Uint8Array (byteNumbers : list N) : list N :=
  (fun n => n mod 256) <$> byteNumbers.

(** [err instanceof Error ? err.message : fallback] *)
Definition message_or (err : thrown) (fallback : jsstring) : jsstring :=
  match err with
  | ErrorObject message => message
  | OtherValue => fallback
  end.

End Lib.
Import Lib.

(** ** The embedded viewer: [FileViewer] of src/App.tsx *)

Module Viewer.

Inductive FileType : Type := docx | xlsx.

Record FileData : Type := {
  type : FileType;
  fileName : jsstring;
  sheets : option (list sheet)
}.

(** The properties that the handler reads of [event.data].  The declared
    type says [fileType] is ['docx' | 'xlsx'], but a message comes from
    outside the program.  [type] and [fileType] are only compared with
    string constants: a property that is missing or is not a string is
    given here by a string that is none of the constants.  [fileData] is
    given by its conversion to a string, which is what [atob] reads. *)
Record FlutterMessage : Type := {
  msg_type : jsstring;
  msg_fileType : jsstring;
  msg_fileName : jsstring;
  msg_fileData : jsstring
}.

(** [event.data] of a window message.  Every window can post every value:
    [null] and [undefined] have no property to read, any other value has
    (for a primitive every property is [undefined]). *)
Inductive MessageData : Type :=
| Null
| Undefined
| Object (data : FlutterMessage).

(** The TypeError of [event.data.type] when [event.data] is [null] or
    [undefined].  Its message is the engine's (here V8's); the program
    never reads it. *)
Definition cannot_read_type (value : jsstring) : thrown :=
  ErrorObject
    (lit "Cannot read properties of " ++ value ++ lit " (reading 'type')").

(** The six [useState] cells. *)
Record state : Type := {
  fileData : option FileData;
  content : jsstring;
  excelSheets : list sheet;
  selectedSheetIndex : nat;
  loading : bool;
  error : option jsstring
}.

Definition initial : state :=
  {| fileData := None; content := []; excelSheets := [];
     selectedSheetIndex := 0; loading := true; error := None |}.

(** What an async function of the component does to the outside: a call of
    a state setter, or a suspension at an [await]. *)
Inductive op : Type :=
| SetFileData (v : option FileData)
| SetContent (v : jsstring)
| SetExcelSheets (v : list sheet)
| SetSelectedSheetIndex (v : nat)
| SetLoading (v : bool)
| SetError (v : option jsstring)
| Suspend.

Definition apply_op (o : op) (st : state) : state :=
  match o with
  | SetFileData v =>
      {| fileData := v; content := content st; excelSheets := excelSheets st;
         selectedSheetIndex := selectedSheetIndex st; loading := loading st;
         error := error st |}
  | SetContent v =>
      {| fileData := fileData st; content := v; excelSheets := excelSheets st;
         selectedSheetIndex := selectedSheetIndex st; loading := loading st;
         error := error st |}
  | SetExcelSheets v =>
      {| fileData := fileData st; content := content st; excelSheets := v;
         selectedSheetIndex := selectedSheetIndex st; loading := loading st;
         error := error st |}
  | SetSelectedSheetIndex v =>
      {| fileData := fileData st; content := content st;
         excelSheets := excelSheets st; selectedSheetIndex := v;
         loading := loading st; error := error st |}
  | SetLoading v =>
      {| fileData := fileData st; content := content st;
         excelSheets := excelSheets st;
         selectedSheetIndex := selectedSheetIndex st; loading := v;
         error := error st |}
  | SetError v =>
      {| fileData := fileData st; content := content st;
         excelSheets := excelSheets st;
         selectedSheetIndex := selectedSheetIndex st; loading := loading st;
         error := v |}
  | Suspend => st
  end.

Definition run_ops (ops : list op) (st : state) : state :=
  foldl (fun st o => apply_op o st) st ops.

(** The async functions of the component never read its state, so one is
    given by the operations it performs in order and by how it settles. *)
Definition async (A : Type) : Type := list op * result A.

Definition trace {A} (m : async A) : list op := m.1.
Definition settled {A} (m : async A) : result A := m.2.

#[global] Instance async_ret : MRet async := fun A a => ([], Ok a).
#[global] Instance async_bind : MBind async := fun A B k m =>
  match m with
  | (ops, Ok a) => let '(ops', r) := k a in (ops ++ ops', r)
  | (ops, Throw e) => (ops, Throw e)
  end.

(** A call of a state setter. *)
Definition call (o : op) : async unit := ([o], Ok tt).

(** A synchronous call that can throw. *)
Definition sync {A} (r : result A) : async A := ([], r).

(** [await promise] for a library promise that settles with [r]. *)
Definition await {A} (r : result A) : async A := ([Suspend], r).

(** [await f(...)] for an async function [f] of the component: the body of
    [f] runs, the caller resumes in a later microtask. *)
Definition await_call {A} (m : async A) : async A := (m.1 ++ [Suspend], m.2).

(** [try { body } catch (err) { handler }] *)
Definition try_catch {A} (body : async A) (handler : thrown -> async A)
  : async A :=
  match body with
  | (ops, Ok a) => (ops, Ok a)
  | (ops, Throw err) => let '(ops', r) := handler err in (ops ++ ops', r)
  end.

Section WithLibraries.
Context `{Libraries}.

Definition renderDocx (arrayBuffer : list N) (fileName : jsstring)
  : async unit :=
  htmlResult ← await (mammoth_convertToHtml convertImage_imgElement arrayBuffer);
  textResult ← await (mammoth_extractRawText arrayBuffer);
  call (SetFileData (Some {| type := docx; fileName := fileName;
                             sheets := None |}));;
  call (SetContent (processedHtml htmlResult textResult)).

Definition renderExcel (arrayBuffer : list N) (fileName : jsstring)
  : async unit :=
  workbook ← sync (XLSX_read arrayBuffer);
  sheets ← sync (workbook_sheets workbook);
  call (SetFileData (Some {| type := xlsx; fileName := fileName;
                             sheets := Some sheets |}));;
  call (SetExcelSheets sheets);;
  call (SetSelectedSheetIndex 0).

(** [event.data.type] is read before the [try]: what it throws is not
    caught, and the promise of the handler is rejected. *)
Definition handleMessage (event_data : MessageData) : async unit :=
  match event_data with
  | Null => sync (Throw (cannot_read_type (lit "null")))
  | Undefined => sync (Throw (cannot_read_type (lit "undefined")))
  | Object data =>
    if decide (msg_type data = lit "FILE_DATA") then
      let fileType := msg_fileType data in
      let fileName := msg_fileName data in
      let fileData := msg_fileData data in
      try_catch
        (call (SetLoading true);;
         call (SetError None);;
         byteCharacters ← sync (atob fileData);
         let byteNumbers := byteCharacters in
         let byteArray := Uint8Array byteNumbers in
         let arrayBuffer := byteArray in
         (if decide (fileType = lit "docx") then
            await_call (renderDocx arrayBuffer fileName)
          else if decide (fileType = lit "xlsx") then
            await_call (renderExcel arrayBuffer fileName)
          else mret tt);;
         call (SetLoading false))
        (fun err =>
           call (SetError
                   (Some (message_or err (lit "Unknown error occurred"))));;
           call (SetLoading false))
    else mret tt
  end.

(** The state once a handler has run to its end with nothing else in
    between. *)
Definition run {A} (m : async A) (st : state) : state := run_ops (trace m) st.

End WithLibraries.

(** *** What the component renders *)

(** What a call of the component function gives: one of its screens, or
    [null], or an exception. *)
Inductive screen : Type :=
| LoadingScreen
| ErrorScreen (message : jsstring)
| WaitingScreen
| DocxScreen (html : jsstring)
(** [tabs] are the sheet buttons with the index each passes to
    [setSelectedSheetIndex]; [currentSheet] is
    [excelSheets[selectedSheetIndex]], whose [html] the screen shows. *)
| XlsxScreen (tabs : list (nat * jsstring)) (currentSheet : sheet)
| NoScreen
(** The function throws instead of returning. *)
| RenderThrows (err : thrown).

(** The TypeError of [currentSheet.html] when [currentSheet] is
    [undefined] (the message is V8's). *)
Definition cannot_read_html : thrown :=
  ErrorObject (lit "Cannot read properties of undefined (reading 'html')").

(** [if (error)]: a string is truthy unless it is empty. *)
Definition truthy (e : option jsstring) : bool :=
  match e with
  | Some (_ :: _) => true
  | _ => false
  end.

Definition render (st : state) : screen :=
  if loading st then LoadingScreen
  else if truthy (error st) then ErrorScreen (default [] (error st))
  else match fileData st with
       | None => WaitingScreen
       | Some fd =>
           match type fd with
           | docx => DocxScreen (content st)
           | xlsx =>
               if (0 <? length (excelSheets st))%nat then
                 match excelSheets st !! selectedSheetIndex st with
                 | Some currentSheet =>
                     XlsxScreen
                       (if (1 <? length (excelSheets st))%nat
                        then imap (fun idx sh => (idx, name sh))
                                  (excelSheets st)
                        else [])
                       currentSheet
                 | None => RenderThrows cannot_read_html
                 end
               else NoScreen
           end
       end.

(** [onClick={() => setSelectedSheetIndex(idx)}] *)
Definition setSelectedSheetIndex (idx : nat) (st : state) : state :=
  apply_op (SetSelectedSheetIndex idx) st.

(** The user selects the sheet of index [idx]: a click on the button that
    [excelSheets.map((sheet, idx) => <button onClick=...>)] rendered for
    that index.  When the screen has no such button there is nothing to
    click. *)
Definition click_tab (idx : nat) (st : state) : state :=
  match render st with
  | XlsxScreen tabs _ =>
      if bool_decide (idx ∈ tabs.*1) then setSelectedSheetIndex idx st else st
  | _ => st
  end.

(** *** Handlers in flight together *)

(** The operations between two suspensions run without interruption. *)
Fixpoint segments (ops : list op) : list (list op) :=
  match ops with
  | [] => [[]]
  | Suspend :: ops' => [] :: segments ops'
  | o :: ops' =>
      match segments ops' with
      | seg :: segs => (o :: seg) :: segs
      | [] => [[o]]
      end
  end.

(** The page: the component state and, for every message handler that has
    begun, the segments it has still to run. *)
Record page : Type := {
  view : state;
  in_flight : list (list (list op))
}.

Inductive event : Type :=
| Deliver (data : MessageData)      (* a window message arrives *)
| Resume (i : nat).                 (* the awaited promise of handler [i] settles *)

Definition step `{Libraries} (e : event) (pg : page) : page :=
  match e with
  | Deliver data =>
      match segments (trace (handleMessage data)) with
      | first :: later =>
          {| view := run_ops first (view pg);
             in_flight := in_flight pg ++ [later] |}
      | [] => pg
      end
  | Resume i =>
      match in_flight pg !! i with
      | Some (seg :: later) =>
          {| view := run_ops seg (view pg);
             in_flight := <[i := later]> (in_flight pg) |}
      | _ => pg
      end
  end.

Definition steps `{Libraries} (es : list event) (pg : page) : page :=
  foldl (fun pg e => step e pg) pg es.

End Viewer.

(** A message with properties is a message. *)
Coercion Viewer.Object : Viewer.FlutterMessage >-> Viewer.MessageData.

(** ** The stand-alone uploader: [App] of the second component *)

Module Uploader.

(** A [File] of the input element: its name and how the promise of
    [file.arrayBuffer()] settles. *)
Record File : Type := {
  file_name : jsstring;
  file_arrayBuffer : result (list N)
}.

(** The six [useState] cells. *)
Record state : Type := {
  selectedFile : option File;
  fileContent : jsstring;
  fileType : jsstring;
  isLoading : bool;
  error : jsstring;
  excelData : list sheet
}.

Definition initial : state :=
  {| selectedFile := None; fileContent := []; fileType := [];
     isLoading := false; error := []; excelData := [] |}.

(** The calls the page makes on the browser's object-URL store. *)
Inductive url_call : Type :=
| CreateObjectURL (url : jsstring)
| RevokeObjectURL (url : jsstring).

#[global] Instance url_call_eq_dec : EqDecision url_call.
Proof. solve_decision. Defined.

(** The component state and the calls made on the URL store so far. *)
Record world : Type := {
  ui : state;
  url_calls : list url_call
}.

Definition start : world := {| ui := initial; url_calls := [] |}.

Definition is_create (c : url_call) : bool :=
  match c with CreateObjectURL _ => true | RevokeObjectURL _ => false end.

(** How many times [u] has been created, and revoked. *)
Definition created (u : jsstring) (w : world) : nat :=
  length (filter (fun c => c = CreateObjectURL u) (url_calls w)).
Definition revoked (u : jsstring) (w : world) : nat :=
  length (filter (fun c => c = RevokeObjectURL u) (url_calls w)).

(** A handler: it changes the world and ends normally or by a throw. *)
Definition handler (A : Type) : Type := world -> world * result A.

#[global] Instance handler_ret : MRet handler := fun A a w => (w, Ok a).
#[global] Instance handler_bind : MBind handler := fun A B k m w =>
  match m w with
  | (w', Ok a) => k a w'
  | (w', Throw e) => (w', Throw e)
  end.

Definition update (f : state -> state) : handler unit :=
  fun w => ({| ui := f (ui w); url_calls := url_calls w |}, Ok tt).

Definition setSelectedFile (v : option File) : handler unit :=
  update (fun st =>
    {| selectedFile := v; fileContent := fileContent st;
       fileType := fileType st; isLoading := isLoading st; error := error st;
       excelData := excelData st |}).
Definition setFileContent (v : jsstring) : handler unit :=
  update (fun st =>
    {| selectedFile := selectedFile st; fileContent := v;
       fileType := fileType st; isLoading := isLoading st; error := error st;
       excelData := excelData st |}).
Definition setFileType (v : jsstring) : handler unit :=
  update (fun st =>
    {| selectedFile := selectedFile st; fileContent := fileContent st;
       fileType := v; isLoading := isLoading st; error := error st;
       excelData := excelData st |}).
Definition setIsLoading (v : bool) : handler unit :=
  update (fun st =>
    {| selectedFile := selectedFile st; fileContent := fileContent st;
       fileType := fileType st; isLoading := v; error := error st;
       excelData := excelData st |}).
Definition setError (v : jsstring) : handler unit :=
  update (fun st =>
    {| selectedFile := selectedFile st; fileContent := fileContent st;
       fileType := fileType st; isLoading := isLoading st; error := v;
       excelData := excelData st |}).
Definition setExcelData (v : list sheet) : handler unit :=
  update (fun st =>
    {| selectedFile := selectedFile st; fileContent := fileContent st;
       fileType := fileType st; isLoading := isLoading st; error := error st;
       excelData := v |}).

(** A library call, or an awaited library promise: the handlers of this
    component are followed to their end one at a time. *)
Definition lib {A} (r : result A) : handler A := fun w => (w, r).

(** [try { body } catch (err) { on_throw } finally { at_last }] *)
Definition try_catch_finally (body : handler unit)
  (on_throw : thrown -> handler unit) (at_last : handler unit) : handler unit :=
  fun w =>
    match body w with
    | (w', Ok tt) => at_last w'
    | (w', Throw err) => (on_throw err;; at_last) w'
    end.

Section WithLibraries.
Context `{Libraries}.

(** [URL.createObjectURL(file)]: a URL not handed out before. *)
Definition URL_createObjectURL (file : File) : handler jsstring :=
  fun w =>
    let url := blob_url (length (List.filter is_create (url_calls w))) in
    ({| ui := ui w; url_calls := url_calls w ++ [CreateObjectURL url] |}, Ok url).

(** [file.name.split('.').pop()?.toLowerCase()] *)
Definition fileExtension (file : File) : option jsstring :=
  toLowerCase <$> pop (split DOT (file_name file)).

Definition legacy_message (fileExtension : jsstring) : jsstring :=
  toUpperCase fileExtension ++
  lit " files require conversion. Please save as DOCX (for Word) or use Google Docs viewer.".

Definition unsupported_message : jsstring :=
  lit "Unsupported file type. Please upload .docx, .xlsx, .xls, or .pdf files.".

(** [handleFileUpload], with [files0] for [event.target.files?.[0]]. *)
Definition handleFileUpload (files0 : option File) : handler unit :=
  match files0 with
  | None => mret tt
  | Some file =>
      setError [];;
      setIsLoading true;;
      setSelectedFile (Some file);;
      setFileContent [];;
      setExcelData [];;
      try_catch_finally
        (let fileExtension := fileExtension file in
         if decide (fileExtension = Some (lit "docx")) then
           setFileType (lit "word");;
           arrayBuffer ← lib (file_arrayBuffer file);
           result ← lib (mammoth_convertToHtml no_options arrayBuffer);
           setFileContent result
         else if decide (fileExtension = Some (lit "xlsx")
                         \/ fileExtension = Some (lit "xls")) then
           setFileType (lit "excel");;
           arrayBuffer ← lib (file_arrayBuffer file);
           workbook ← lib (XLSX_read arrayBuffer);
           sheets ← lib (workbook_sheets workbook);
           setExcelData sheets
         else if decide (fileExtension = Some (lit "pdf")) then
           setFileType (lit "pdf");;
           url ← URL_createObjectURL file;
           setFileContent url
         else if decide (fileExtension = Some (lit "doc")
                         \/ fileExtension = Some (lit "ppt")
                         \/ fileExtension = Some (lit "pptx")) then
           setError (legacy_message (default [] fileExtension))
         else
           setError unsupported_message)
        (fun err =>
           setError (lit "Error loading file: " ++
                     message_or err (lit "Unknown error")))
        (setIsLoading false)
  end.

Definition handleClearFile : handler unit :=
  setSelectedFile None;;
  setFileContent [];;
  setExcelData [];;
  setFileType [];;
  setError [].

(** The user's actions on the page. *)
Inductive action : Type :=
| ChooseFile (files0 : option File)
| ClearFile.

Definition act (a : action) (w : world) : world :=
  match a with
  | ChooseFile files0 => (handleFileUpload files0 w).1
  | ClearFile => (handleClearFile w).1
  end.

Definition acts (l : list action) (w : world) : world :=
  foldl (fun w a => act a w) w l.

End WithLibraries.

End Uploader.

(** ** Stand-ins for the libraries, to run the components on examples *)

Module Stub.

(** The converter wraps the bytes in one paragraph, the text extraction
    returns them, a workbook has one sheet holding the bytes, and the
    payload of a message is taken as already decoded. *)
#[export] Instance libraries : Libraries := {|
  WorkSheet := jsstring;
  atob := fun s => Ok s;
  mammoth_convertToHtml := fun _ buffer => Ok (lit "<p>" ++ buffer ++ lit "</p>");
  mammoth_extractRawText := fun buffer => Ok buffer;
  XLSX_read := fun buffer =>
    Ok {| SheetNames := [lit "Sheet1"];
          Sheets := {[ lit "Sheet1" := buffer ]} |};
  XLSX_utils_sheet_to_html := fun worksheet =>
    match worksheet with
    | Some cells => Ok (lit "<table>" ++ cells ++ lit "</table>")
    | None => Throw (ErrorObject (lit "Cannot read properties of undefined"))
    end;
  blob_url := fun n => lit "blob:" ++ replicate n 49
|}.

(** Two DOCX messages, a workbook that lists the name [Data] twice, a
    viewer state with two sheets, and a PDF file. *)
Definition first_message : Viewer.FlutterMessage :=
  {| Viewer.msg_type := lit "FILE_DATA"; Viewer.msg_fileType := lit "docx";
     Viewer.msg_fileName := lit "first.docx"; Viewer.msg_fileData := lit "one" |}.

Definition second_message : Viewer.FlutterMessage :=
  {| Viewer.msg_type := lit "FILE_DATA"; Viewer.msg_fileType := lit "docx";
     Viewer.msg_fileName := lit "second.docx"; Viewer.msg_fileData := lit "two" |}.

Definition fresh_page : Viewer.page :=
  {| Viewer.view := Viewer.initial; Viewer.in_flight := [] |}.

Definition twice_named : WorkBook jsstring :=
  {| SheetNames := [lit "Data"; lit "Data"];
     Sheets := {[ lit "Data" := lit "1,2" ]} |}.

Definition two_sheets : Viewer.state :=
  let sheets := [ {| name := lit "Sheet1"; html := lit "<table>1</table>" |};
                  {| name := lit "Sheet2"; html := lit "<table>2</table>" |} ] in
  {| Viewer.fileData :=
       Some {| Viewer.type := Viewer.xlsx; Viewer.fileName := lit "book.xlsx";
               Viewer.sheets := Some sheets |};
     Viewer.content := [];
     Viewer.excelSheets := sheets;
     Viewer.selectedSheetIndex := 0;
     Viewer.loading := false;
     Viewer.error := None |}.

Definition report_pdf : Uploader.File :=
  {| Uploader.file_name := lit "Report.PDF";
     Uploader.file_arrayBuffer := Ok (lit "%PDF-1.7") |}.

End Stub.

(** ** The embedded viewer, continued *)

Module ViewerMore.
Import Viewer.

Section WithLibraries.
Context `{Libraries}.

(** The [try] block of [handleMessage]. *)
Definition try_block (data : FlutterMessage) : async unit :=
  let fileType := msg_fileType data in
  let fileName := msg_fileName data in
  let fileData := msg_fileData data in
  call (SetLoading true);;
  call (SetError None);;
  byteCharacters ← sync (atob fileData);
  let byteNumbers := byteCharacters in
  let byteArray := Uint8Array byteNumbers in
  let arrayBuffer := byteArray in
  (if decide (fileType = lit "docx") then
     await_call (renderDocx arrayBuffer fileName)
   else if decide (fileType = lit "xlsx") then
     await_call (renderExcel arrayBuffer fileName)
   else mret tt);;
  call (SetLoading false).

(** Its [catch] clause. *)
Definition catch_clause (err : thrown) : async unit :=
  call (SetError (Some (message_or err (lit "Unknown error occurred"))));;
  call (SetLoading false).

(** The pages the viewer can come to: it starts with the initial state and
    no handler begun; a window message arrives, an awaited promise settles,
    or the user clicks a sheet tab that the screen shows. *)
Inductive reachable : page -> Prop :=
| reachable_start : reachable {| view := initial; in_flight := [] |}
| reachable_step e pg : reachable pg -> reachable (step e pg)
| reachable_click pg tabs current idx label :
    reachable pg ->
    render (view pg) = XlsxScreen tabs current ->
    (idx, label) ∈ tabs ->
    reachable {| view := setSelectedSheetIndex idx (view pg);
                 in_flight := in_flight pg |}.

End WithLibraries.

(** The selected index names a sheet, when there is any. *)
Definition index_in_bounds (st : state) : Prop :=
  excelSheets st = [] \/
  (selectedSheetIndex st < length (excelSheets st))%nat.

(** A run of operations that keeps [index_in_bounds]. *)
Definition keeps_index (ops : list op) : Prop :=
  forall st, index_in_bounds st -> index_in_bounds (run_ops ops st).

(** A handler that has begun and has still to resume. *)
Definition pending (pg : page) : Prop :=
  exists later, later ∈ in_flight pg /\ later <> [].

(** What is left of a handler ends with [setLoading(false)]. *)
Definition ends_loading (later : list (list op)) : Prop :=
  later = [] \/
  exists seg, last later = Some seg /\ last seg = Some (SetLoading false).

End ViewerMore.

(** ** The uploader, continued: what it renders *)

Module UploaderView.
Import Uploader.

(** A string in a condition: true unless empty. *)
Definition truthy (s : jsstring) : bool :=
  match s with
  | [] => false
  | _ :: _ => true
  end.

(** [{condition && <element>}] *)
Definition shown {A} (condition : bool) (element : A) : option A :=
  if condition then Some element else None.

(** The upload panel (no file selected), with its error text and spinner
    when shown, or the file panel with its error banner and its three
    document displays: the Word fragment, the sheets, the PDF frame. *)
Inductive screen : Type :=
| UploadPanel (error_text : option jsstring) (spinner : bool)
| FilePanel (file : File) (error_banner : option jsstring)
    (word : option jsstring) (excel : option (list sheet))
    (pdf : option jsstring).

Definition render (st : state) : screen :=
  match selectedFile st with
  | None => UploadPanel (shown (truthy (error st)) (error st)) (isLoading st)
  | Some file =>
      FilePanel file
        (shown (truthy (error st)) (error st))
        (shown (bool_decide (fileType st = lit "word")
                && truthy (fileContent st)) (fileContent st))
        (shown (bool_decide (fileType st = lit "excel")
                && (0 <? length (excelData st))%nat) (excelData st))
        (shown (bool_decide (fileType st = lit "pdf")
                && truthy (fileContent st)) (fileContent st))
  end.

Section WithLibraries.
Context `{Libraries}.

(** The statements of [handleFileUpload] before its [try]. *)
Definition reset_for (file : File) : handler unit :=
  setError [];;
  setIsLoading true;;
  setSelectedFile (Some file);;
  setFileContent [];;
  setExcelData [].

(** The [try] block of [handleFileUpload]. *)
Definition try_block (file : File) : handler unit :=
  let fileExtension := fileExtension file in
  if decide (fileExtension = Some (lit "docx")) then
    setFileType (lit "word");;
    arrayBuffer ← lib (file_arrayBuffer file);
    result ← lib (mammoth_convertToHtml no_options arrayBuffer);
    setFileContent result
  else if decide (fileExtension = Some (lit "xlsx")
                  \/ fileExtension = Some (lit "xls")) then
    setFileType (lit "excel");;
    arrayBuffer ← lib (file_arrayBuffer file);
    workbook ← lib (XLSX_read arrayBuffer);
    sheets ← lib (workbook_sheets workbook);
    setExcelData sheets
  else if decide (fileExtension = Some (lit "pdf")) then
    setFileType (lit "pdf");;
    url ← URL_createObjectURL file;
    setFileContent url
  else if decide (fileExtension = Some (lit "doc")
                  \/ fileExtension = Some (lit "ppt")
                  \/ fileExtension = Some (lit "pptx")) then
    setError (legacy_message (default [] fileExtension))
  else
    setError unsupported_message.

End WithLibraries.

(** The choice of a file whose extension is [pdf]. *)
Definition is_pdf_choice (a : action) : bool :=
  match a with
  | ChooseFile (Some file) => bool_decide (fileExtension file = Some (lit "pdf"))
  | _ => false
  end.

End UploaderView.

(** ** The byte buffer of a message, statement by statement *)

Module Bytes.

(** [byteNumbers[i] = byteCharacters.charCodeAt(i)] for [i] from [i] on,
    [remaining] times.  An array slot is [None] while it is a hole;
    [charCodeAt] past the end gives [NaN], also [None] here. *)
Fixpoint fill (byteCharacters : jsstring) (remaining i : nat)
  (byteNumbers : list (option N)) : list (option N) :=
  match remaining with
  | O => byteNumbers
  | S remaining' =>
      fill byteCharacters remaining' (S i)
           (<[i := byteCharacters !! i]> byteNumbers)
  end.

(** [new Uint8Array(array)]: a number is taken modulo 256, a hole or [NaN]
    becomes 0. *)
Definition Uint8Array_from (array : list (option N)) : list N :=
  (fun slot => match slot with Some n => n mod 256 | None => 0 end) <$> array.

(** [const byteNumbers = new Array(byteCharacters.length); for (...) ...;
    const byteArray = new Uint8Array(byteNumbers)] *)
Definition byteArray (byteCharacters : jsstring) : list N :=
  let byteNumbers := replicate (length byteCharacters) None in
  Uint8Array_from (fill byteCharacters (length byteCharacters) 0 byteNumbers).

End Bytes.

(** ** Libraries that fail, to run the components on examples *)

Module Corrupt.

(** The payload decodes, and both converters reject what it holds. *)
#[export] Instance libraries : Libraries := {|
  WorkSheet := jsstring;
  atob := fun s => Ok s;
  mammoth_convertToHtml := fun _ _ =>
    Throw (ErrorObject (lit "Can't find end of central directory"));
  mammoth_extractRawText := fun _ =>
    Throw (ErrorObject (lit "Can't find end of central directory"));
  XLSX_read := fun _ => Throw (ErrorObject (lit "Unsupported file"));
  XLSX_utils_sheet_to_html := fun _ => Throw OtherValue;
  blob_url := fun n => lit "blob:" ++ replicate n 49
|}.

End Corrupt.

(** ** Libraries that reject an empty file *)

Module Picky.

(** As the stand-ins of [Stub], but the DOCX converter rejects a buffer
    without bytes. *)
#[export] Instance libraries : Libraries := {|
  WorkSheet := jsstring;
  atob := fun s => Ok s;
  mammoth_convertToHtml := fun _ buffer =>
    match buffer with
    | [] => Throw (ErrorObject (lit "Can't find end of central directory"))
    | _ :: _ => Ok (lit "<p>" ++ buffer ++ lit "</p>")
    end;
  mammoth_extractRawText := fun buffer => Ok buffer;
  XLSX_read := fun buffer =>
    Ok {| SheetNames := [lit "Sheet1"];
          Sheets := {[ lit "Sheet1" := buffer ]} |};
  XLSX_utils_sheet_to_html := fun worksheet =>
    match worksheet with
    | Some cells => Ok (lit "<table>" ++ cells ++ lit "</table>")
    | None => Throw (ErrorObject (lit "Cannot read properties of undefined"))
    end;
  blob_url := fun n => lit "blob:" ++ replicate n 49
|}.

Definition empty_message : Viewer.FlutterMessage :=
  {| Viewer.msg_type := lit "FILE_DATA"; Viewer.msg_fileType := lit "docx";
     Viewer.msg_fileName := lit "empty.docx"; Viewer.msg_fileData := [] |}.

End Picky.

(** ** More inputs for the examples *)

Module Samples.

Definition workbook_message : Viewer.FlutterMessage :=
  {| Viewer.msg_type := lit "FILE_DATA"; Viewer.msg_fileType := lit "xlsx";
     Viewer.msg_fileName := lit "book.xlsx"; Viewer.msg_fileData := lit "1,2" |}.




Definition report_pdf_lower : Uploader.File :=
  {| Uploader.file_name := lit "report.pdf";
     Uploader.file_arrayBuffer := Ok (lit "%PDF-1.7") |}.

End Samples.

(** ** Further vocabulary: insertions into a fragment *)

Module Markup.

(** [inserted markers s out]: [out] is [s] with strings of [markers] put in
    at some places, every character of [s] kept, in order. *)
Inductive inserted (markers : list jsstring) : jsstring -> jsstring -> Prop :=
| inserted_nil : inserted markers [] []
| inserted_keep c s out :
    inserted markers s out -> inserted markers (c :: s) (c :: out)
| inserted_marker m s out :
    m ∈ markers -> inserted markers s out -> inserted markers s (m ++ out).

(** The strings the two replacers of [renderDocx] put around a match. *)
Definition docx_markers : list jsstring :=
  [span_open; span_close; lit "<p>"; lit "</p>"].

(** How many underscores a string holds. *)
Definition underscore_count (s : jsstring) : nat :=
  length (List.filter (fun c => c =? UNDERSCORE) s).

End Markup.
Import Markup.

(** * Properties *)

(** ** The matcher and the global replacement *)

Section Matcher.

Lemma lazy_star_le a k s n :
  (forall t m, k t = Some m -> (m <= length t)%nat) ->
  lazy_star a k s = Some n -> (n <= length s)%nat.
Proof.
  intros Hk. revert n. induction s as [|c s IH]; intros n; simpl.
  - destruct (k []) eqn:E; [|discriminate].
    intros [= <-]. apply (Hk _ _ E).
  - destruct (k (c :: s)) eqn:E.
    + intros [= <-]. apply (Hk _ _ E).
    + destruct (atom_matches a c); [|discriminate].
      destruct (lazy_star a k s) eqn:E'; [|discriminate].
      intros [= <-]. specialize (IH _ eq_refl). lia.
Qed.

Lemma at_least_le a k need s n :
  (forall t m, k t = Some m -> (m <= length t)%nat) ->
  at_least a k need s = Some n -> (n <= length s)%nat.
Proof.
  intros Hk. revert need n.
  induction s as [|c s IH]; intros need n; simpl.
  - destruct need; [|discriminate]. apply Hk.
  - assert (Hstop : match need with O => k (c :: s) | S _ => None end = Some n ->
                    (n <= S (length s))%nat).
    { destruct need; [|discriminate]. apply Hk. }
    destruct (atom_matches a c); [|exact Hstop].
    destruct (at_least a k (pred need) s) eqn:E; [|exact Hstop].
    intros [= <-]. specialize (IH _ _ E). lia.
Qed.

(** A match never reaches past the end of the string. *)
Lemma exec_at_le r : forall s n, exec_at r s = Some n -> (n <= length s)%nat.
Proof.
  induction r as [|[a|a|min a] r IH]; intros s n; simpl.
  - intros [= <-]. lia.
  - destruct s as [|c s]; [discriminate|].
    destruct (atom_matches a c); [|discriminate].
    destruct (exec_at r s) eqn:E; [|discriminate].
    intros [= <-]. specialize (IH _ _ E). simpl. lia.
  - apply lazy_star_le, IH.
  - apply at_least_le, IH.
Qed.

Variables (r : regex) (replacer : jsstring -> jsstring).

Lemma replace_from_drop skip : forall s,
  (skip <= length s)%nat ->
  replace_from r replacer skip s = replace r replacer (drop skip s).
Proof.
  induction skip as [|skip IH]; intros s Hle.
  - by rewrite drop_0.
  - destruct s as [|c s]; simpl in *; [lia|].
    apply IH. lia.
Qed.

(** No match at the current position: the character is copied. *)
Lemma replace_no_match c s :
  exec_at r (c :: s) = None ->
  replace r replacer (c :: s) = c :: replace r replacer s.
Proof. unfold replace. simpl. by intros ->. Qed.

(** A non-empty match at the current position: the replacer's result for
    the matched substring, then the scan goes on after the match. *)
Lemma replace_match s n :
  exec_at r s = Some (S n) ->
  replace r replacer s =
  replacer (take (S n) s) ++ replace r replacer (drop (S n) s).
Proof.
  intros E. pose proof (exec_at_le _ _ _ E) as Hle.
  destruct s as [|c s]; [simpl in Hle; lia|].
  unfold replace at 1. cbn [replace_from]. rewrite E.
  f_equal. rewrite replace_from_drop; [reflexivity | simpl in Hle; lia].
Qed.

End Matcher.

(** ** The underscore pass: [content.replace(/_{3,}/g, ...)] *)

Section UnderscorePass.

Lemma at_least_underscores need : forall s,
  at_least (Chr UNDERSCORE) (exec_at []) need s =
  if (need <=? leading_underscores s)%nat
  then Some (leading_underscores s) else None.
Proof.
  intros s. revert need. induction s as [|c s IH]; intros need.
  - destruct need; reflexivity.
  - cbn [at_least leading_underscores atom_matches].
    destruct (c =? UNDERSCORE).
    + rewrite IH.
      destruct need as [|need]; cbn [pred]; [reflexivity|].
      change (S need <=? S (leading_underscores s))%nat
        with (need <=? leading_underscores s)%nat.
      destruct (need <=? leading_underscores s)%nat; reflexivity.
    + destruct need; reflexivity.
Qed.

(** [/_{3,}/] matches at the beginning of [s] exactly when at least three
    underscores stand there, and then takes the whole run. *)
Lemma exec_underscore_run s :
  exec_at underscore_run s =
  if (3 <=? leading_underscores s)%nat
  then Some (leading_underscores s) else None.
Proof. apply at_least_underscores. Qed.

Lemma leading_underscores_run n t :
  head t <> Some UNDERSCORE ->
  leading_underscores (underscores n ++ t) = n.
Proof.
  intros Ht. induction n as [|n IH]; simpl.
  - destruct t as [|c t]; [reflexivity|]. simpl.
    destruct (N.eqb_spec c UNDERSCORE) as [->|]; [by destruct Ht|reflexivity].
  - unfold underscores, repeat_char in IH. by rewrite IH.
Qed.

Lemma leading_underscores_split s :
  s = underscores (leading_underscores s) ++ drop (leading_underscores s) s
  /\ head (drop (leading_underscores s) s) <> Some UNDERSCORE.
Proof.
  induction s as [|c s [IH1 IH2]]; simpl.
  - split; [reflexivity|discriminate].
  - destruct (N.eqb_spec c UNDERSCORE) as [->|Hc]; simpl.
    + split; [|exact IH2]. f_equal. exact IH1.
    + split; [reflexivity|]. intros [= ?]. contradiction.
Qed.

(** A whole run at the beginning of the string becomes its [field]. *)
Lemma processedContent_run n t :
  head t <> Some UNDERSCORE ->
  processedContent (underscores n ++ t) = field n ++ processedContent t.
Proof.
  intros Ht. unfold processedContent, field.
  destruct (3 <=? n)%nat eqn:E3.
  - apply Nat.leb_le in E3. destruct n as [|n]; [lia|].
    rewrite (replace_match _ _ _ n).
    + rewrite take_app_length', drop_app_length'
        by (unfold underscores, repeat_char; by rewrite length_replicate).
      unfold wrap_underscores, underscores, repeat_char.
      rewrite length_replicate. by rewrite <- !app_assoc.
    + rewrite exec_underscore_run, leading_underscores_run by done.
      by apply Nat.leb_le in E3 as ->.
  - apply Nat.leb_gt in E3.
    assert (Hshort : forall m, (m < 3)%nat ->
      replace underscore_run wrap_underscores (underscores m ++ t) =
      underscores m ++ replace underscore_run wrap_underscores t).
    { induction m as [|m IH]; intros Hm; [reflexivity|].
      change (underscores (S m) ++ t) with (UNDERSCORE :: underscores m ++ t).
      rewrite replace_no_match.
      - rewrite IH by lia. reflexivity.
      - change (UNDERSCORE :: underscores m ++ t) with (underscores (S m) ++ t).
        rewrite exec_underscore_run, leading_underscores_run by done.
        destruct (Nat.leb_spec 3 (S m)); [lia|reflexivity]. }
    by apply Hshort.
Qed.

(** The pass works run by run: the string can be cut anywhere but inside a
    run of underscores. *)
Lemma processedContent_app u t :
  last u <> Some UNDERSCORE \/ head t <> Some UNDERSCORE ->
  processedContent (u ++ t) = processedContent u ++ processedContent t.
Proof.
  remember (length u) as k eqn:Hk. revert u Hk.
  induction k as [k IH] using lt_wf_ind. intros u -> Hcut.
  destruct u as [|c u']; [reflexivity|].
  destruct (leading_underscores_split (c :: u')) as [Hsplit Hhead].
  set (n := leading_underscores (c :: u')) in *.
  set (rest := drop n (c :: u')) in *.
  assert (Hlen : length (c :: u') = (n + length rest)%nat).
  { rewrite Hsplit at 1. rewrite length_app. unfold underscores, repeat_char.
    by rewrite length_replicate. }
  destruct n as [|n].
  - (* the first character is not an underscore *)
    simpl in Hsplit. rewrite <- Hsplit in Hhead.
    assert (Hex : forall v, exec_at underscore_run (c :: v) = None).
    { intros v. rewrite exec_underscore_run. simpl.
      destruct (N.eqb_spec c UNDERSCORE) as [->|]; [by destruct Hhead|reflexivity]. }
    unfold processedContent in *. simpl app.
    rewrite !replace_no_match by apply Hex. simpl. f_equal.
    apply (IH (length u')); [simpl; lia|reflexivity|].
    destruct Hcut as [Hl|Hh]; [|by right].
    left. destruct u' as [|c' u'']; [discriminate|exact Hl].
  - (* the string begins with a run of [S n] underscores *)
    rewrite Hsplit. destruct rest as [|d rest'].
    + rewrite app_nil_r in *.
      assert (Ht : head t <> Some UNDERSCORE).
      { destruct Hcut as [Hl|Hh]; [|exact Hh]. exfalso. apply Hl.
        rewrite Hsplit. unfold underscores, repeat_char.
        rewrite replicate_S_end. by rewrite last_snoc. }
      rewrite processedContent_run by exact Ht. f_equal.
      rewrite <- (app_nil_r (underscores (S n))).
      rewrite processedContent_run by discriminate.
      by rewrite app_nil_r.
    + rewrite <- app_assoc.
      rewrite !processedContent_run by exact Hhead.
      rewrite <- app_assoc. f_equal.
      apply (IH (length (d :: rest'))); [lia|reflexivity|].
      destruct Hcut as [Hl|Hh]; [left|by right].
      rewrite Hsplit in Hl. by rewrite last_app_cons in Hl.
Qed.

End UnderscorePass.

(** ** The paragraph pass: [processedHtml.replace(/<p>(.*?)<\/p>/g, ...)] *)

Section ParagraphPass.

Lemma starts_with_app p t : starts_with p (p ++ t) = true.
Proof. induction p as [|a p IH]; simpl; [done|]. by rewrite N.eqb_refl. Qed.

Lemma starts_with_length p s :
  starts_with p s = true -> (length p <= length s)%nat.
Proof.
  revert s. induction p as [|a p IH]; intros [|c s]; simpl; try lia; try done.
  intros [_ H]%andb_true_iff. apply IH in H. lia.
Qed.

Lemma starts_with_app_l p s t :
  (length p <= length s)%nat -> starts_with p (s ++ t) = starts_with p s.
Proof.
  revert s. induction p as [|a p IH]; intros [|c s]; simpl; try lia; try done.
  intros H. rewrite IH by lia. reflexivity.
Qed.

Lemma index_of_bound p : forall s i,
  index_of p s = Some i -> (i + length p <= length s)%nat.
Proof.
  induction s as [|c s IH]; intros i; simpl.
  - destruct (starts_with p []) eqn:E; [|discriminate].
    intros [= <-]. by apply starts_with_length in E.
  - destruct (starts_with p (c :: s)) eqn:E.
    + intros [= <-]. by apply starts_with_length in E.
    + destruct (index_of p s) as [i'|]; [|discriminate].
      intros [= <-]. specialize (IH _ eq_refl). lia.
Qed.

(** The first occurrence stays the first when text is appended. *)
Lemma index_of_app p t : forall s i,
  index_of p s = Some i -> index_of p (s ++ t) = Some i.
Proof.
  induction s as [|c s IH]; intros i H.
  - pose proof (index_of_bound _ _ _ H) as Hb. simpl in Hb.
    destruct p; [|simpl in Hb; lia]. simpl in H. injection H as <-.
    destruct t; reflexivity.
  - pose proof (index_of_bound _ _ _ H) as Hb.
    cbn [app]. cbn [index_of] in *.
    change (c :: s ++ t) with ((c :: s) ++ t).
    rewrite starts_with_app_l by lia.
    destruct (starts_with p (c :: s)); [exact H|].
    destruct (index_of p s) as [i'|]; [|discriminate].
    by rewrite (IH _ eq_refl).
Qed.

Lemma p_open_units : p_open = [LT_; LOWER_P; GT_].
Proof. reflexivity. Qed.

Lemma p_close_units : p_close = [LT_; SLASH; LOWER_P; GT_].
Proof. reflexivity. Qed.

Ltac case_units :=
  repeat match goal with
         | |- context [?c =? ?k] => destruct (c =? k); cbn
         end.

(** A conjunction of character tests, one of which compares two different
    constants, cannot hold. *)
Ltac clash_units E :=
  repeat (apply andb_prop in E as [? E]);
  match goal with
  | H : (_ =? _) = true |- _ => vm_compute in H; discriminate H
  end.

Lemma exec_close_tag s :
  exec_at close_tag s = if starts_with p_close s then Some 4%nat else None.
Proof.
  rewrite p_close_units.
  destruct s as [|c1 [|c2 [|c3 [|c4 s]]]]; cbn; case_units; reflexivity.
Qed.

Lemma lazy_star_close : forall s,
  lazy_star AnyChar (exec_at close_tag) s =
  match index_of p_close s with
  | Some i => if no_line_terminator (take i s) then Some (i + 4)%nat else None
  | None => None
  end.
Proof.
  induction s as [|c s IH].
  - reflexivity.
  - cbn [lazy_star index_of]. rewrite exec_close_tag.
    destruct (starts_with p_close (c :: s)); [reflexivity|].
    rewrite IH. cbn [atom_matches].
    destruct (index_of p_close s) as [i|];
      destruct (is_line_terminator c) eqn:Ec;
      cbn [negb fmap option_fmap option_map take no_line_terminator forallb];
      rewrite ?Ec; cbn [negb andb]; try reflexivity.
    change (forallb (fun c0 => negb (is_line_terminator c0)) (take i s))
      with (no_line_terminator (take i s)).
    destruct (no_line_terminator (take i s)); reflexivity.
Qed.

(** [/<p>(.*?)<\/p>/] matches at the beginning of [s] exactly when [s]
    opens with the tag, a closing tag follows, and no line terminator
    stands before the first one; the match ends with that closing tag. *)
Lemma exec_paragraph s :
  exec_at paragraph s =
  if starts_with p_open s then
    match index_of p_close (drop 3 s) with
    | Some i =>
        if no_line_terminator (take i (drop 3 s)) then Some (i + 7)%nat
        else None
    | None => None
    end
  else None.
Proof.
  rewrite p_open_units.
  destruct s as [|c1 [|c2 [|c3 s]]]; cbn [starts_with];
    try (cbn; case_units; reflexivity).
  change (exec_at paragraph (c1 :: c2 :: c3 :: s)) with
    (if c1 =? LT_ then
       S <$> (if c2 =? LOWER_P then
                S <$> (if c3 =? GT_ then
                         S <$> lazy_star AnyChar (exec_at close_tag) s
                       else None)
              else None)
     else None).
  rewrite lazy_star_close. cbn [drop]. rewrite drop_0.
  destruct (c1 =? LT_), (c2 =? LOWER_P), (c3 =? GT_);
    cbn [andb fmap option_fmap option_map]; try reflexivity.
  destruct (index_of p_close s) as [i|];
    cbn [fmap option_fmap option_map]; [|reflexivity].
  destruct (no_line_terminator (take i s));
    cbn [fmap option_fmap option_map]; [|reflexivity].
  f_equal. lia.
Qed.

Lemma exec_paragraph_min s n : exec_at paragraph s = Some n -> (7 <= n)%nat.
Proof.
  rewrite exec_paragraph.
  destruct (starts_with p_open s); [|discriminate].
  destruct (index_of p_close (drop 3 s)); [|discriminate].
  destruct (no_line_terminator _); [|discriminate].
  intros [= <-]. lia.
Qed.

Lemma index_of_past_open t :
  index_of p_close (p_open ++ t) =
  (fun i => S (S (S i))) <$> index_of p_close t.
Proof.
  change (index_of p_close (p_open ++ t))
    with (S <$> (S <$> (S <$> index_of p_close t))).
  by destruct (index_of p_close t).
Qed.

(** A closing tag cannot begin in the last three characters before an
    opening tag, nor inside it: a first closing tag that is not wholly
    before the opening tag of an element is that element's own. *)
Lemma index_of_close_across pre body rest :
  index_of p_close (body ++ p_close) = Some (length body) ->
  forall i,
  index_of p_close (pre ++ p_open ++ body ++ p_close ++ rest) = Some i ->
  (length pre < i + 4)%nat ->
  i = (length pre + 3 + length body)%nat.
Proof.
  intros Hbody. induction pre as [|c pre IH]; intros i Hi Hlen.
  - cbn [app] in Hi. rewrite index_of_past_open in Hi.
    rewrite (app_assoc body), (index_of_app _ _ _ _ Hbody) in Hi.
    cbn in Hi. injection Hi as <-. reflexivity.
  - cbn [app index_of] in Hi.
    destruct (starts_with p_close (c :: pre ++ p_open ++ body ++ p_close ++ rest))
      eqn:E.
    + exfalso. injection Hi as <-. cbn [length] in Hlen.
      rewrite p_close_units, p_open_units in E.
      destruct pre as [|c2 [|c3 [|c4 pre]]]; cbn [length] in Hlen; [| | |lia];
        cbn [app starts_with] in E; clash_units E.
    + destruct (index_of p_close (pre ++ p_open ++ body ++ p_close ++ rest))
        as [i'|] eqn:E'; [|discriminate].
      injection Hi as <-. cbn [length] in *.
      rewrite (IH i' eq_refl) by lia. reflexivity.
Qed.

(** The element at the current position of the scan is matched whole. *)
Lemma exec_paragraph_here body rest :
  index_of p_close (body ++ p_close) = Some (length body) ->
  no_line_terminator body = true ->
  exec_at paragraph (p_open ++ body ++ p_close ++ rest) =
  Some (length body + 7)%nat.
Proof.
  intros Hclose Hlt. rewrite exec_paragraph, starts_with_app.
  change (drop 3 (p_open ++ body ++ p_close ++ rest))
    with (body ++ p_close ++ rest).
  rewrite (app_assoc body), (index_of_app _ _ _ _ Hclose).
  rewrite <- app_assoc, take_app_length. by rewrite Hlt.
Qed.

(** A match that begins earlier and reaches into the element ends with the
    element's closing tag. *)
Lemma exec_paragraph_cover pre body rest n :
  index_of p_close (body ++ p_close) = Some (length body) ->
  exec_at paragraph (pre ++ p_open ++ body ++ p_close ++ rest) = Some n ->
  (length pre < n)%nat ->
  n = (length pre + length body + 7)%nat.
Proof.
  intros Hclose. rewrite exec_paragraph.
  destruct (starts_with p_open _) eqn:Es; [|discriminate].
  destruct pre as [|c1 [|c2 [|c3 pre]]].
  - cbn [app]. change (drop 3 (p_open ++ body ++ p_close ++ rest))
      with (body ++ p_close ++ rest).
    rewrite (app_assoc body), (index_of_app _ _ _ _ Hclose).
    destruct (no_line_terminator _); [|discriminate].
    intros [= <-] _. reflexivity.
  - exfalso. rewrite p_open_units in Es. cbn [app starts_with] in Es.
    clash_units Es.
  - exfalso. rewrite p_open_units in Es. cbn [app starts_with] in Es.
    clash_units Es.
  - cbn [app drop]. rewrite drop_0.
    destruct (index_of p_close (pre ++ p_open ++ body ++ p_close ++ rest))
      as [i|] eqn:Ei; [|discriminate].
    destruct (no_line_terminator _); [|discriminate].
    intros [= <-] Hlen. cbn [length] in *.
    rewrite (index_of_close_across _ _ _ Hclose _ Ei) by lia. lia.
Qed.

Lemma processedContent_p_close : processedContent p_close = p_close.
Proof. reflexivity. Qed.

(** Every [<p>...</p>] element that has no line terminator in it is
    reached by the scan, at its opening tag or inside a match that began
    earlier, and its content goes through the underscore pass. *)
Lemma paragraph_scan body rest :
  index_of p_close (body ++ p_close) = Some (length body) ->
  no_line_terminator body = true ->
  forall pre, exists out1 closing,
    replace paragraph wrap_paragraph (pre ++ p_open ++ body ++ p_close ++ rest) =
    out1 ++ processedContent body ++ closing ++
    replace paragraph wrap_paragraph rest.
Proof.
  intros Hclose Hlt pre.
  remember (length pre) as k eqn:Hk. revert pre Hk.
  induction k as [k IH] using lt_wf_ind. intros pre ->.
  destruct (exec_at paragraph (pre ++ p_open ++ body ++ p_close ++ rest))
    as [n|] eqn:E.
  - pose proof (exec_paragraph_min _ _ E) as Hn.
    destruct n as [|n]; [lia|].
    rewrite (replace_match _ _ _ _ E).
    destruct (Nat.le_gt_cases (S n) (length pre)) as [Hin|Hout].
    + (* the match ends before the element *)
      rewrite take_app_le, drop_app_le by exact Hin.
      destruct (IH (length (drop (S n) pre))) with (pre := drop (S n) pre)
        as (out1 & closing & ->); [rewrite length_drop; lia|reflexivity|].
      exists (wrap_paragraph (take (S n) pre) ++ out1), closing.
      by rewrite <- app_assoc.
    + (* the match reaches into the element: it ends where the element does *)
      pose proof (exec_paragraph_cover _ _ _ _ Hclose E Hout) as Hlen.
      assert (Hcut : pre ++ p_open ++ body ++ p_close ++ rest =
                     (pre ++ p_open ++ body ++ p_close) ++ rest).
      { by rewrite <- !app_assoc. }
      assert (Hl : length (pre ++ p_open ++ body ++ p_close) = S n).
      { rewrite !length_app. change (length p_open) with 3%nat.
        change (length p_close) with 4%nat. lia. }
      rewrite Hcut, <- Hl, take_app_length, drop_app_length.
      unfold wrap_paragraph.
      rewrite (app_assoc pre), (processedContent_app (pre ++ p_open))
        by (left; rewrite p_open_units, last_app_cons; discriminate).
      rewrite (processedContent_app body)
        by (right; rewrite p_close_units; discriminate).
      rewrite processedContent_p_close.
      exists (lit "<p>" ++ processedContent (pre ++ p_open)),
             (p_close ++ lit "</p>").
      by rewrite <- !app_assoc.
  - destruct pre as [|c pre].
    + cbn [app] in E.
      rewrite (exec_paragraph_here _ _ Hclose Hlt) in E. discriminate E.
    + cbn [app] in *. rewrite (replace_no_match _ _ _ _ E).
      destruct (IH (length pre)) with (pre := pre)
        as (out1 & closing & ->); [cbn; lia|reflexivity|].
      by exists (c :: out1), closing.
Qed.

(** An element at the position of the scan comes out inside a second pair
    of paragraph tags: the replacer is given the match with its tags and
    adds tags of its own. *)
Lemma paragraph_pass_doubles_tags body rest :
  index_of p_close (body ++ p_close) = Some (length body) ->
  no_line_terminator body = true ->
  replace paragraph wrap_paragraph (p_open ++ body ++ p_close ++ rest) =
  p_open ++ p_open ++ processedContent body ++ p_close ++ p_close ++
  replace paragraph wrap_paragraph rest.
Proof.
  intros Hclose Hlt.
  pose proof (exec_paragraph_here body rest Hclose Hlt) as E.
  replace (length body + 7)%nat with (S (length body + 6)) in E by lia.
  rewrite (replace_match _ _ _ _ E).
  assert (Hl : length (p_open ++ body ++ p_close) = S (length body + 6)).
  { rewrite !length_app. change (length p_open) with 3%nat.
    change (length p_close) with 4%nat. lia. }
  replace (p_open ++ body ++ p_close ++ rest)
    with ((p_open ++ body ++ p_close) ++ rest) by (by rewrite <- !app_assoc).
  rewrite <- Hl, take_app_length, drop_app_length. unfold wrap_paragraph.
  rewrite (processedContent_app p_open)
    by (left; rewrite p_open_units; discriminate).
  rewrite (processedContent_app body)
    by (right; rewrite p_close_units; discriminate).
  rewrite processedContent_p_close.
  change (processedContent p_open) with p_open.
  change (lit "<p>") with p_open. change (lit "</p>") with p_close.
  by rewrite <- !app_assoc.
Qed.

(** [/_+/.test(text)] holds exactly when the text has an underscore. *)
Lemma hasUnderscores_spec text :
  hasUnderscores text = true <-> UNDERSCORE ∈ text.
Proof.
  unfold hasUnderscores. induction text as [|c text IH].
  - split; [discriminate|]. by intros ?%elem_of_nil.
  - cbn [test].
    change (exec_at underscore_plus (c :: text))
      with (at_least (Chr UNDERSCORE) (exec_at []) 1 (c :: text)).
    rewrite at_least_underscores. cbn [leading_underscores].
    destruct (N.eqb_spec c UNDERSCORE) as [->|Hc].
    + split; [intros _; left|reflexivity].
    + cbn. rewrite IH, elem_of_cons.
      split; [by right|]. intros [E|Hin]; [by destruct Hc|exact Hin].
Qed.

End ParagraphPass.

(** ** The DOCX normalizer *)

Section DocxNormalizer.

(** The two passes on small inputs: the lazy star stops at the first
    closing tag, a line terminator blocks it, the greedy run takes every
    underscore, and runs shorter than three are copied. *)
Example paragraph_ends_at_first_close :
  exec_at paragraph (lit "<p>a</p>b</p>") = Some 8%nat.
Proof. reflexivity. Qed.

Example paragraph_blocked_by_line_feed :
  exec_at paragraph (lit "<p>a" ++ [10] ++ lit "</p>") = None.
Proof. reflexivity. Qed.

Example run_of_five_taken_whole :
  exec_at underscore_run (lit "_____x") = Some 5%nat.
Proof. reflexivity. Qed.

Example five_wrapped_two_copied :
  processedContent (lit "a__b_____c") =
  lit "a__b" ++ span_open ++ lit "_____" ++ span_close ++ lit "c".
Proof. reflexivity. Qed.

(** What the two passes make of an element that has no line terminator
    in it, when the scan is at its opening tag.  A maximal run of [n]
    underscores of its content becomes its [field]: the marker span around
    exactly [n] underscores when [n >= 3], the run itself when [n] is 1 or
    2.  The text before and after the run goes through the same pass, the
    tags come out doubled, and the rest of the fragment is processed as it
    would be alone. *)
Lemma underscore_runs_in_a_paragraph
  (text before after rest : jsstring) (n : nat) :
  UNDERSCORE ∈ text ->
  no_line_terminator (before ++ underscores n ++ after) = true ->
  index_of p_close ((before ++ underscores n ++ after) ++ p_close)
    = Some (length (before ++ underscores n ++ after)) ->
  last before <> Some UNDERSCORE ->
  head after <> Some UNDERSCORE ->
  processedHtml
    (p_open ++ (before ++ underscores n ++ after) ++ p_close ++ rest) text
  = p_open ++ p_open ++ processedContent before ++ field n
    ++ processedContent after ++ p_close ++ p_close
    ++ processedHtml rest text.
Proof.
  intros Htext Hlt Hclose Hbefore Hafter.
  apply hasUnderscores_spec in Htext. unfold processedHtml. rewrite Htext.
  rewrite (paragraph_pass_doubles_tags _ rest Hclose Hlt).
  rewrite (processedContent_app before) by (by left).
  rewrite processedContent_run by exact Hafter.
  by rewrite <- !app_assoc.
Qed.

(** C1: the paragraph pattern [/<p>(.*?)<\/p>/g] has no [s] flag, so its
    [.] stops at a line terminator and an element with a line feed in it
    is not recognised.  The element below holds a run of three underscores
    after a line feed: the fragment comes out as it went in, with the run
    unwrapped.  With a space in place of the line feed the same run is
    wrapped in the marker span. *)
Theorem paragraph_with_line_feed_left_unwrapped :
  processedHtml (lit "<p>a" ++ [10] ++ lit "___</p>")
                (lit "a" ++ [10] ++ lit "___")
  = lit "<p>a" ++ [10] ++ lit "___</p>" /\
  processedHtml (lit "<p>a ___</p>") (lit "a ___")
  = lit "<p><p>a " ++ span_open ++ lit "___" ++ span_close ++ lit "</p></p>".
Proof. by split. Qed.

(** C2: the replacer of the paragraph pass is handed the whole match, tags
    included, and wraps it in a second pair of tags; the fragment that
    [renderDocx] stores is not the converter's output with spans added. *)
Theorem paragraph_tags_doubled :
  processedHtml (lit "<p>a_b</p>") (lit "a_b" ++ [10; 10])
  = lit "<p><p>a_b</p></p>".
Proof. reflexivity. Qed.

End DocxNormalizer.

(** ** The embedded viewer *)

Section ViewerProperties.
Import Viewer.
Context `{Libraries}.

Lemma run_ops_app ops1 ops2 st :
  run_ops (ops1 ++ ops2) st = run_ops ops2 (run_ops ops1 st).
Proof. apply foldl_app. Qed.

(** C3: when the extracted text has no underscore, the fragment that
    [renderDocx] stores is the converter's output, unchanged. *)
Theorem renderDocx_without_underscores
  (arrayBuffer fileName html text : jsstring) (st : state) :
  mammoth_convertToHtml convertImage_imgElement arrayBuffer = Ok html ->
  mammoth_extractRawText arrayBuffer = Ok text ->
  UNDERSCORE ∉ text ->
  settled (renderDocx arrayBuffer fileName) = Ok tt /\
  content (run (renderDocx arrayBuffer fileName) st) = html.
Proof.
  intros Hhtml Htext Hno.
  assert (Hp : processedHtml html text = html).
  { unfold processedHtml. destruct (hasUnderscores text) eqn:E; [|reflexivity].
    apply hasUnderscores_spec in E. contradiction. }
  unfold renderDocx, run. rewrite Hhtml, Htext. cbn. by rewrite Hp.
Qed.

(** C9: a message whose [type] is not ['FILE_DATA'] makes the handler call
    no setter at all; the six state cells stay as they were. *)
Theorem handleMessage_ignores_other_types (data : FlutterMessage) (st : state) :
  msg_type data <> lit "FILE_DATA" ->
  trace (handleMessage data) = [] /\ run (handleMessage data) st = st.
Proof.
  intros Hty. unfold run, handleMessage. by case_decide.
Qed.

(** C10: a ['FILE_DATA'] message whose payload decodes and whose [fileType]
    is neither ['docx'] nor ['xlsx'] makes the handler call three setters
    and no other: [setLoading(true)], [setError(null)], [setLoading(false)].
    It ends normally with [loading] false and [error] null, and stores
    nothing: file data, content, sheets and selected index are those of
    before (none, for a viewer that has shown nothing yet). *)
Theorem handleMessage_unknown_fileType
  (data : FlutterMessage) (bytes : jsstring) (st : state) :
  msg_type data = lit "FILE_DATA" ->
  atob (msg_fileData data) = Ok bytes ->
  msg_fileType data <> lit "docx" ->
  msg_fileType data <> lit "xlsx" ->
  let st' := run (handleMessage data) st in
  settled (handleMessage data) = Ok tt /\
  trace (handleMessage data) = [SetLoading true; SetError None; SetLoading false] /\
  loading st' = false /\ error st' = None /\
  fileData st' = fileData st /\ content st' = content st /\
  excelSheets st' = excelSheets st /\
  selectedSheetIndex st' = selectedSheetIndex st.
Proof.
  intros Hty Hatob Hd Hx. unfold run, handleMessage. cbv zeta.
  rewrite decide_True by exact Hty. rewrite Hatob.
  destruct (decide (msg_fileType data = lit "docx")); [contradiction|].
  destruct (decide (msg_fileType data = lit "xlsx")); [contradiction|].
  cbn. by repeat split.
Qed.

(** *** Sheets *)

Lemma Array_map_spec {A B} (f : A -> result B) (l : list A) (ys : list B) :
  Array_map f l = Ok ys ->
  length ys = length l /\
  forall i x, l !! i = Some x -> exists y, ys !! i = Some y /\ f x = Ok y.
Proof.
  revert ys. induction l as [|x l IH]; intros ys; cbn [Array_map].
  - intros [= <-]. split; [reflexivity|]. intros i x Hi. by destruct i.
  - destruct (f x) as [y|e] eqn:Ef; [|discriminate].
    destruct (Array_map f l) as [ys'|e]; [|discriminate].
    intros [= <-]. destruct (IH _ eq_refl) as [Hlen Hnth].
    split; [cbn; by rewrite Hlen|].
    intros [|i] x' Hi; cbn in *.
    + injection Hi as <-. by exists y.
    + by apply Hnth.
Qed.

Lemma renderExcel_ok arrayBuffer fileName workbook sheets :
  XLSX_read arrayBuffer = Ok workbook ->
  workbook_sheets workbook = Ok sheets ->
  renderExcel arrayBuffer fileName =
  ([SetFileData (Some {| type := xlsx; fileName := fileName;
                         sheets := Some sheets |});
    SetExcelSheets sheets; SetSelectedSheetIndex 0], Ok tt).
Proof.
  intros Hread Hsheets. unfold renderExcel, sync. rewrite Hread.
  unfold mbind at 1, async_bind at 1. rewrite Hsheets. reflexivity.
Qed.

(** *** The sheet tabs *)



(** *** Loads in flight together *)

Lemma handleMessage_docx (data : FlutterMessage) (bytes html text : jsstring) :
  msg_type data = lit "FILE_DATA" ->
  msg_fileType data = lit "docx" ->
  atob (msg_fileData data) = Ok bytes ->
  mammoth_convertToHtml convertImage_imgElement (Uint8Array bytes) = Ok html ->
  mammoth_extractRawText (Uint8Array bytes) = Ok text ->
  handleMessage data =
  ([SetLoading true; SetError None; Suspend; Suspend;
    SetFileData (Some {| type := docx; fileName := msg_fileName data;
                         sheets := None |});
    SetContent (processedHtml html text); Suspend; SetLoading false], Ok tt).
Proof.
  intros Hty Hft Hatob Hhtml Htext. unfold handleMessage. cbv zeta.
  rewrite decide_True by exact Hty. rewrite Hatob.
  destruct (decide (msg_fileType data = lit "docx")); [|contradiction].
  cbn [mbind async_bind sync call try_catch].
  unfold await_call, renderDocx. rewrite Hhtml.
  cbn [mbind async_bind await]. rewrite Htext. reflexivity.
Qed.

Lemma step_resume (pg : page) (i : nat) (seg : list op) (later : list (list op)) :
  in_flight pg !! i = Some (seg :: later) ->
  view (step (Resume i) pg) = run_ops seg (view pg) /\
  in_flight (step (Resume i) pg) !! i = Some later.
Proof.
  intros Hi. cbn [step]. rewrite Hi. cbn. split; [reflexivity|].
  apply list_lookup_insert_eq. by apply lookup_lt_Some in Hi.
Qed.

Lemma handleMessage_docx_rejected (data : FlutterMessage) (bytes : jsstring)
  (err : thrown) :
  msg_type data = lit "FILE_DATA" ->
  msg_fileType data = lit "docx" ->
  atob (msg_fileData data) = Ok bytes ->
  mammoth_convertToHtml convertImage_imgElement (Uint8Array bytes) = Throw err ->
  handleMessage data =
  ([SetLoading true; SetError None; Suspend; Suspend;
    SetError (Some (message_or err (lit "Unknown error occurred")));
    SetLoading false], Ok tt).
Proof.
  intros Hty Hft Hatob Hhtml. unfold handleMessage. cbv zeta.
  rewrite decide_True by exact Hty. rewrite Hatob.
  destruct (decide (msg_fileType data = lit "docx")); [|contradiction].
  cbn [mbind async_bind sync call try_catch].
  unfold await_call, renderDocx. rewrite Hhtml. reflexivity.
Qed.

Lemma handleMessage_docx_text_rejected (data : FlutterMessage)
  (bytes html : jsstring) (err : thrown) :
  msg_type data = lit "FILE_DATA" ->
  msg_fileType data = lit "docx" ->
  atob (msg_fileData data) = Ok bytes ->
  mammoth_convertToHtml convertImage_imgElement (Uint8Array bytes) = Ok html ->
  mammoth_extractRawText (Uint8Array bytes) = Throw err ->
  handleMessage data =
  ([SetLoading true; SetError None; Suspend; Suspend; Suspend;
    SetError (Some (message_or err (lit "Unknown error occurred")));
    SetLoading false], Ok tt).
Proof.
  intros Hty Hft Hatob Hhtml Htext. unfold handleMessage. cbv zeta.
  rewrite decide_True by exact Hty. rewrite Hatob.
  destruct (decide (msg_fileType data = lit "docx")); [|contradiction].
  cbn [mbind async_bind sync call try_catch].
  unfold await_call, renderDocx. rewrite Hhtml.
  cbn [mbind async_bind await]. rewrite Htext. reflexivity.
Qed.

(** The handler that a message starts is the last in flight, with the
    segments after its first still to run. *)
Lemma step_deliver (event_data : MessageData) (pg : page) :
  in_flight (step (Deliver event_data) pg) !! length (in_flight pg)
  = Some (tail (segments (trace (handleMessage event_data)))).
Proof.
  cbn [step].
  assert (Hne : forall ops, segments ops <> []).
  { intros ops. induction ops as [|o ops IH]; [discriminate|].
    destruct o; cbn [segments]; try discriminate;
      by destruct (segments ops). }
  destruct (segments (trace (handleMessage event_data))) as [|first later] eqn:E;
    [by destruct (Hne _ E)|].
  cbn [in_flight tail]. by apply list_lookup_middle.
Qed.

(** What other handlers do, and the messages that arrive, leave the
    segments of handler [i] as they are. *)
Lemma steps_keep_handler (es : list event) (i : nat) (pg : page)
  (later : list (list op)) :
  Forall (fun e => e <> Resume i) es ->
  in_flight pg !! i = Some later ->
  in_flight (steps es pg) !! i = Some later.
Proof.
  unfold steps. revert pg.
  induction es as [|e es IH]; intros pg Hes Hi; [exact Hi|].
  apply Forall_cons in Hes as [He Hes]. cbn [foldl]. apply IH; [exact Hes|].
  destruct e as [event_data|j]; cbn [step].
  - destruct (segments (trace (handleMessage event_data))); [exact Hi|].
    cbn [in_flight]. by apply lookup_app_l_Some.
  - destruct (in_flight pg !! j) as [[|seg rest]|]; try exact Hi.
    cbn [in_flight]. rewrite list_lookup_insert_ne; [exact Hi|].
    intros ->. by destruct He.
Qed.

(** Handler [i] resumes after the events [es], none of them its own. *)
Lemma resume_after (es : list event) (i : nat) (pg : page)
  (seg : list op) (later : list (list op)) :
  Forall (fun e => e <> Resume i) es ->
  in_flight pg !! i = Some (seg :: later) ->
  view (step (Resume i) (steps es pg)) = run_ops seg (view (steps es pg)) /\
  in_flight (step (Resume i) (steps es pg)) !! i = Some later.
Proof.
  intros Hes Hi. apply step_resume. by apply steps_keep_handler.
Qed.

(** C7, as the code has it: loads carry no token.  A DOCX load begins on
    page [pg0] and is handler [i]; it resumes three times, after the
    events [es1], [es2] and [es3] of other loads: any messages that arrive
    and any steps of any other handlers, in any order.  Whatever these
    have made of the view, when the load resumes for the second time it
    stores its file data and content (or, if the conversion was rejected,
    its error message, clearing [loading]), and when it resumes for the
    third time it clears [loading] (or, if the text extraction was
    rejected, stores its error message and clears [loading]).  The cells
    that the load does not write keep what the view held just before. *)
Theorem settling_load_is_applied_unconditionally
  (data : FlutterMessage) (bytes : jsstring) (pg0 : page) (i : nat)
  (es1 es2 es3 : list event) :
  msg_type data = lit "FILE_DATA" ->
  msg_fileType data = lit "docx" ->
  atob (msg_fileData data) = Ok bytes ->
  i = length (in_flight pg0) ->
  Forall (fun e => e <> Resume i) (es1 ++ es2 ++ es3) ->
  let pg1 := steps es1 (step (Deliver data) pg0) in
  let pg2 := steps es2 (step (Resume i) pg1) in
  let pg3 := steps es3 (step (Resume i) pg2) in
  (forall html text,
     mammoth_convertToHtml convertImage_imgElement (Uint8Array bytes) = Ok html ->
     mammoth_extractRawText (Uint8Array bytes) = Ok text ->
     view (step (Resume i) pg2) =
       {| fileData := Some {| type := docx; fileName := msg_fileName data;
                              sheets := None |};
          content := processedHtml html text;
          excelSheets := excelSheets (view pg2);
          selectedSheetIndex := selectedSheetIndex (view pg2);
          loading := loading (view pg2); error := error (view pg2) |} /\
     view (step (Resume i) pg3) =
       {| fileData := fileData (view pg3); content := content (view pg3);
          excelSheets := excelSheets (view pg3);
          selectedSheetIndex := selectedSheetIndex (view pg3);
          loading := false; error := error (view pg3) |}) /\
  (forall err,
     mammoth_convertToHtml convertImage_imgElement (Uint8Array bytes)
       = Throw err ->
     view (step (Resume i) pg2) =
       {| fileData := fileData (view pg2); content := content (view pg2);
          excelSheets := excelSheets (view pg2);
          selectedSheetIndex := selectedSheetIndex (view pg2);
          loading := false;
          error := Some (message_or err (lit "Unknown error occurred")) |}) /\
  (forall html err,
     mammoth_convertToHtml convertImage_imgElement (Uint8Array bytes) = Ok html ->
     mammoth_extractRawText (Uint8Array bytes) = Throw err ->
     view (step (Resume i) pg2) = view pg2 /\
     view (step (Resume i) pg3) =
       {| fileData := fileData (view pg3); content := content (view pg3);
          excelSheets := excelSheets (view pg3);
          selectedSheetIndex := selectedSheetIndex (view pg3);
          loading := false;
          error := Some (message_or err (lit "Unknown error occurred")) |}).
Proof.
  intros Hty Hft Hatob -> Hes pg1 pg2 pg3.
  apply Forall_app in Hes as [Hes1 Hes]. apply Forall_app in Hes as [Hes2 Hes3].
  pose proof (step_deliver data pg0) as Hbegin.
  assert (Hview : forall st : state,
            st = {| fileData := fileData st; content := content st;
                    excelSheets := excelSheets st;
                    selectedSheetIndex := selectedSheetIndex st;
                    loading := loading st; error := error st |})
    by (by intros []).
  repeat apply conj.
  - intros html text Hhtml Htext.
    rewrite (handleMessage_docx _ _ _ _ Hty Hft Hatob Hhtml Htext) in Hbegin.
    cbn [trace fst segments tail] in Hbegin.
    destruct (resume_after es1 _ _ _ _ Hes1 Hbegin) as [_ H1].
    destruct (resume_after es2 _ _ _ _ Hes2 H1) as [Hv2 H2].
    destruct (resume_after es3 _ _ _ _ Hes3 H2) as [Hv3 _].
    fold pg1 in H1. fold pg1 pg2 in Hv2, H2. fold pg1 pg2 pg3 in Hv3.
    by rewrite Hv2, Hv3.
  - intros err Hhtml.
    rewrite (handleMessage_docx_rejected _ _ _ Hty Hft Hatob Hhtml) in Hbegin.
    cbn [trace fst segments tail] in Hbegin.
    destruct (resume_after es1 _ _ _ _ Hes1 Hbegin) as [_ H1].
    destruct (resume_after es2 _ _ _ _ Hes2 H1) as [Hv2 _].
    fold pg1 in H1. fold pg1 pg2 in Hv2.
    by rewrite Hv2.
  - intros html err Hhtml Htext.
    rewrite (handleMessage_docx_text_rejected _ _ _ _ Hty Hft Hatob Hhtml Htext)
      in Hbegin.
    cbn [trace fst segments tail] in Hbegin.
    destruct (resume_after es1 _ _ _ _ Hes1 Hbegin) as [_ H1].
    destruct (resume_after es2 _ _ _ _ Hes2 H1) as [Hv2 H2].
    destruct (resume_after es3 _ _ _ _ Hes3 H2) as [Hv3 _].
    fold pg1 in H1. fold pg1 pg2 in Hv2, H2. fold pg1 pg2 pg3 in Hv3.
    by rewrite Hv2, Hv3.
Qed.

End ViewerProperties.

(** ** The uploader *)

Section UploaderProperties.
Import Uploader.
Context `{Libraries}.

Lemma split_no_sep (sep : N) (s : jsstring) :
  sep ∉ s -> split sep s = [s].
Proof.
  induction s as [|c s IH]; intros Hs; [reflexivity|].
  apply not_elem_of_cons in Hs as [Hc Hs]. cbn [split].
  destruct (N.eqb_spec c sep) as [->|_]; [done|].
  by rewrite IH.
Qed.

Lemma split_at_sep (sep : N) (u v : jsstring) :
  exists piece pieces, split sep (u ++ sep :: v) = (piece :: pieces) ++ split sep v.
Proof.
  induction u as [|c u (piece & pieces & IH)]; cbn [app split].
  - rewrite N.eqb_refl. by exists [], [].
  - rewrite IH. destruct (c =? sep).
    + by exists [], (piece :: pieces).
    + by exists (c :: piece), pieces.
Qed.

Lemma last_dot_split (sep : N) (s : jsstring) :
  (sep ∉ s) \/ exists base ext, s = base ++ sep :: ext /\ (sep ∉ ext).
Proof.
  induction s as [|c s [IH|(base & ext & -> & IH)]].
  - left. apply not_elem_of_nil.
  - destruct (decide (c = sep)) as [->|Hc].
    + right. by exists [], s.
    + left. by apply not_elem_of_cons.
  - right. by exists (c :: base), ext.
Qed.

(** [name.split('.').pop()] is the extension of [name]. *)
Lemma pop_split_extension (name : jsstring) :
  exists ext, extension_of name ext /\ pop (split DOT name) = Some ext.
Proof.
  destruct (last_dot_split DOT name) as [Hno|(base & ext & -> & Hext)].
  - exists name. split; [split; [exact Hno|by left]|].
    by rewrite split_no_sep.
  - exists ext. split; [split; [exact Hext|right; by exists base]|].
    destruct (split_at_sep DOT base ext) as (piece & pieces & ->).
    rewrite split_no_sep by exact Hext. unfold pop.
    apply last_snoc.
Qed.

(** Two different literals of the source are different strings. *)
Ltac literals_differ :=
  match goal with
  | E : lit _ = lit _ |- _ => vm_compute in E; discriminate E
  | E : Some (lit _) = Some (lit _) |- _ => vm_compute in E; discriminate E
  end.

(** Runs a handler of the uploader up to the library calls. *)
Ltac run_handler :=
  lazy beta iota zeta delta
    [try_catch_finally setError setIsLoading setSelectedFile setFileContent
     setExcelData setFileType update lib URL_createObjectURL
     mbind handler_bind mret handler_ret fst snd
     ui url_calls selectedFile fileContent fileType isLoading error excelData].

(** The world after the upload of a file with extension [pdf]. *)
Lemma upload_pdf (file : File) (w : world) :
  fileExtension file = Some (lit "pdf") ->
  let url := blob_url (length (List.filter is_create (url_calls w))) in
  (handleFileUpload (Some file) w).1 =
  {| ui := {| selectedFile := Some file; fileContent := url;
              fileType := lit "pdf"; isLoading := false; error := [];
              excelData := [] |};
     url_calls := url_calls w ++ [CreateObjectURL url] |}.
Proof.
  intros He. unfold handleFileUpload. cbv zeta. rewrite He.
  rewrite decide_False by (intros [= ?]; literals_differ).
  rewrite decide_False by (intros [[= ?]|[= ?]]; literals_differ).
  rewrite decide_True by reflexivity. run_handler. reflexivity.
Qed.

(** The world after the upload of a workbook that converts. *)
Lemma upload_excel (file : File) (w : world) (arrayBuffer : jsstring)
  (workbook : WorkBook WorkSheet) (sheets : list sheet) :
  fileExtension file = Some (lit "xlsx") \/
  fileExtension file = Some (lit "xls") ->
  file_arrayBuffer file = Ok arrayBuffer ->
  XLSX_read arrayBuffer = Ok workbook ->
  workbook_sheets workbook = Ok sheets ->
  (handleFileUpload (Some file) w).1 =
  {| ui := {| selectedFile := Some file; fileContent := [];
              fileType := lit "excel"; isLoading := false; error := [];
              excelData := sheets |};
     url_calls := url_calls w |}.
Proof.
  intros He Hbuf Hread Hsheets. unfold handleFileUpload. cbv zeta.
  rewrite decide_False
    by (intros E; destruct He as [He|He]; rewrite He in E; literals_differ).
  rewrite decide_True by exact He.
  rewrite Hbuf. run_handler. rewrite Hread. run_handler.
  rewrite Hsheets. run_handler. reflexivity.
Qed.

(** The world after the upload of a file with a legacy extension. *)
Lemma upload_legacy (file : File) (w : world) (e : jsstring) :
  fileExtension file = Some e ->
  e = lit "doc" \/ e = lit "ppt" \/ e = lit "pptx" ->
  (handleFileUpload (Some file) w).1 =
  {| ui := {| selectedFile := Some file; fileContent := [];
              fileType := fileType (ui w); isLoading := false;
              error := legacy_message e; excelData := [] |};
     url_calls := url_calls w |}.
Proof.
  intros He He'. unfold handleFileUpload. cbv zeta. rewrite He.
  rewrite decide_False
    by (intros [= ->]; destruct He' as [?|[?|?]]; literals_differ).
  rewrite decide_False
    by (intros [[= ->]|[= ->]]; destruct He' as [?|[?|?]]; literals_differ).
  rewrite decide_False
    by (intros [= ->]; destruct He' as [?|[?|?]]; literals_differ).
  rewrite decide_True by (destruct He' as [->|[->| ->]]; auto).
  run_handler. reflexivity.
Qed.

(** The world after the upload of a file with any other extension. *)
Lemma upload_unsupported (file : File) (w : world) (e : jsstring) :
  fileExtension file = Some e ->
  e ∉ [lit "docx"; lit "xlsx"; lit "xls"; lit "pdf";
       lit "doc"; lit "ppt"; lit "pptx"] ->
  (handleFileUpload (Some file) w).1 =
  {| ui := {| selectedFile := Some file; fileContent := [];
              fileType := fileType (ui w); isLoading := false;
              error := unsupported_message; excelData := [] |};
     url_calls := url_calls w |}.
Proof.
  intros He He'. rewrite !not_elem_of_cons in He'.
  destruct He' as (H1 & H2 & H3 & H4 & H5 & H6 & H7 & _).
  unfold handleFileUpload. cbv zeta. rewrite He.
  rewrite decide_False by (intros [= ?]; contradiction).
  rewrite decide_False by (intros [[= ?]|[= ?]]; contradiction).
  rewrite decide_False by (intros [= ?]; contradiction).
  rewrite decide_False by (intros [[= ?]|[[= ?]|[= ?]]]; contradiction).
  run_handler. reflexivity.
Qed.

(** The branch that the uploader takes, by what [split('.').pop()] gives,
    lowered: the text after the last dot of the name, or the whole name
    when it has no dot.  [docx] goes to the Word pipeline, [xlsx] and [xls]
    to the spreadsheet pipeline, [pdf] to the PDF pass-through; [doc],
    [ppt] and [pptx] get the message that asks for a conversion and names
    the extension in upper case; anything else gets the message that lists
    the accepted formats.  In the last two cases no pipeline is chosen:
    [fileType] stays as it was. *)
Lemma handleFileUpload_dispatch (file : File) (w : world) :
  exists ext,
    extension_of (file_name file) ext /\
    let e := toLowerCase ext in
    let w' := (handleFileUpload (Some file) w).1 in
    (e = lit "docx" -> fileType (ui w') = lit "word") /\
    (e = lit "xlsx" \/ e = lit "xls" -> fileType (ui w') = lit "excel") /\
    (e = lit "pdf" ->
       fileType (ui w') = lit "pdf" /\ error (ui w') = [] /\
       exists n, fileContent (ui w') = blob_url n) /\
    (e = lit "doc" \/ e = lit "ppt" \/ e = lit "pptx" ->
       error (ui w') =
         toUpperCase e ++
         lit " files require conversion. Please save as DOCX (for Word) or use Google Docs viewer."
       /\ fileType (ui w') = fileType (ui w)) /\
    (e ∉ [lit "docx"; lit "xlsx"; lit "xls"; lit "pdf";
          lit "doc"; lit "ppt"; lit "pptx"] ->
       error (ui w') =
         lit "Unsupported file type. Please upload .docx, .xlsx, .xls, or .pdf files."
       /\ fileType (ui w') = fileType (ui w)).
Proof.
  destruct (pop_split_extension (file_name file)) as (ext & Hext & Hpop).
  exists ext. split; [exact Hext|]. intros e w'.
  assert (He : fileExtension file = Some e).
  { unfold fileExtension. by rewrite Hpop. }
  clearbody e. repeat apply conj.
  - intros ->. unfold w', handleFileUpload. cbv zeta. rewrite He.
    rewrite decide_True by reflexivity. run_handler.
    destruct (file_arrayBuffer file) as [arrayBuffer|]; [|reflexivity].
    by destruct (mammoth_convertToHtml no_options arrayBuffer).
  - intros He'. unfold w', handleFileUpload. cbv zeta. rewrite He.
    rewrite decide_False by (intros [= ->]; destruct He'; literals_differ).
    rewrite decide_True by (destruct He' as [-> | ->]; auto). run_handler.
    destruct (file_arrayBuffer file) as [arrayBuffer|]; [|reflexivity].
    destruct (XLSX_read arrayBuffer) as [workbook|]; [|reflexivity].
    by destruct (workbook_sheets workbook).
  - intros ->. unfold w'. rewrite (upload_pdf _ _ He). cbn [ui fileType error fileContent].
    repeat split. by eexists.
  - intros He'. unfold w'. rewrite (upload_legacy _ _ _ He He'). by split.
  - intros He'. unfold w'. rewrite (upload_unsupported _ _ _ He He'). by split.
Qed.

(** C5: for a name without a dot, [split('.').pop()] gives the whole name,
    and the uploader takes it for the extension.  A file named [pdf] has no
    extension, and what the dispatch owes it is the message that lists the
    accepted formats, as the file named [pdf.txt] gets it.  Instead the
    file goes to the PDF pass-through: an object URL is created for it and
    stored as the content, and no message is set. *)
Theorem name_without_dot_is_its_own_extension
  (contents : result (list N)) (w : world) :
  let file := {| file_name := lit "pdf"; file_arrayBuffer := contents |} in
  let other := {| file_name := lit "pdf.txt"; file_arrayBuffer := contents |} in
  let url := blob_url (length (List.filter is_create (url_calls w))) in
  (DOT ∉ file_name file) /\
  fileExtension file = Some (lit "pdf") /\
  (handleFileUpload (Some file) w).1 =
    {| ui := {| selectedFile := Some file; fileContent := url;
                fileType := lit "pdf"; isLoading := false; error := [];
                excelData := [] |};
       url_calls := url_calls w ++ [CreateObjectURL url] |} /\
  (handleFileUpload (Some other) w).1 =
    {| ui := {| selectedFile := Some other; fileContent := [];
                fileType := fileType (ui w); isLoading := false;
                error := unsupported_message; excelData := [] |};
       url_calls := url_calls w |}.
Proof.
  intros file other url.
  split; [by apply (bool_decide_unpack _)|].
  split; [reflexivity|].
  split; [by apply upload_pdf|].
  apply (upload_unsupported other w (lit "txt")); [reflexivity|].
  by apply (bool_decide_unpack _).
Qed.

(** *** The object URL of a PDF *)

(** A handler at most adds one [createObjectURL] call to the calls made. *)
Lemma act_url_calls (a : action) (w : world) :
  url_calls (act a w) = url_calls w \/
  exists u, url_calls (act a w) = url_calls w ++ [CreateObjectURL u].
Proof.
  destruct a as [[file|]|]; cbn [act]; [|by left|by left].
  unfold handleFileUpload. cbv zeta.
  repeat case_decide; run_handler.
  - left. destruct (file_arrayBuffer file) as [arrayBuffer|]; [|reflexivity].
    by destruct (mammoth_convertToHtml no_options arrayBuffer).
  - left. destruct (file_arrayBuffer file) as [arrayBuffer|]; [|reflexivity].
    destruct (XLSX_read arrayBuffer) as [workbook|]; [|reflexivity].
    by destruct (workbook_sheets workbook).
  - right. by eexists.
  - by left.
  - by left.
Qed.

(** C8, as the code has it: the load of a PDF creates one object URL and
    stores it as the file content, and no action of the user makes the page
    revoke an object URL.  The URL of a PDF is not revoked when the view is
    cleared nor when another file is loaded: it is never revoked twice, and
    never once. *)
Theorem object_urls_never_revoked (l : list action) (w : world) (u : jsstring) :
  (forall file, fileExtension file = Some (lit "pdf") ->
     let w' := act (ChooseFile (Some file)) w in
     url_calls w' = url_calls w ++ [CreateObjectURL (fileContent (ui w'))]) /\
  revoked u (acts l w) = revoked u w /\
  revoked u (acts l start) = 0%nat.
Proof.
  split.
  { intros file He w'. unfold w'. cbn [act].
    by rewrite (upload_pdf _ _ He). }
  assert (Hstep : forall a w', revoked u (act a w') = revoked u w').
  { intros a w'. unfold revoked.
    destruct (act_url_calls a w') as [->|[u' ->]]; [reflexivity|].
    rewrite filter_app, length_app. cbn.
    rewrite decide_False by discriminate. cbn. lia. }
  assert (Hall : forall l' w', revoked u (acts l' w') = revoked u w').
  { induction l' as [|a l' IH]; intros w'; [reflexivity|].
    unfold acts in *. cbn [foldl]. by rewrite IH, Hstep. }
  split; [apply Hall|]. by rewrite Hall.
Qed.

End UploaderProperties.

(** ** The spreadsheet normalizer *)

Section SpreadsheetNormalizer.
Context `{Libraries}.

(** C4, as the code has it: one entry per sheet name, in workbook order,
    each with its name as it stands and with the table of the worksheet
    that [workbook.Sheets] holds under that name.  The content is found by
    name: entries of the same name are the same.  [renderExcel] stores the
    list as it is and selects its first sheet; [handleFileUpload] stores
    the same list for a file with extension [xlsx] or [xls]. *)
Theorem workbook_sheets_by_name
  (arrayBuffer fileName : jsstring) (workbook : WorkBook WorkSheet)
  (sheets : list sheet) (st : Viewer.state)
  (file : Uploader.File) (w : Uploader.world) :
  XLSX_read arrayBuffer = Ok workbook ->
  workbook_sheets workbook = Ok sheets ->
  name <$> sheets = SheetNames workbook /\
  (forall i sh, sheets !! i = Some sh ->
     XLSX_utils_sheet_to_html (Sheets workbook !! name sh) = Ok (html sh)) /\
  (forall i j a b, sheets !! i = Some a -> sheets !! j = Some b ->
     name a = name b -> a = b) /\
  Viewer.excelSheets (Viewer.run (Viewer.renderExcel arrayBuffer fileName) st)
    = sheets /\
  Viewer.selectedSheetIndex
    (Viewer.run (Viewer.renderExcel arrayBuffer fileName) st) = 0%nat /\
  (Uploader.file_arrayBuffer file = Ok arrayBuffer ->
   Uploader.fileExtension file = Some (lit "xlsx") \/
   Uploader.fileExtension file = Some (lit "xls") ->
   Uploader.excelData
     (Uploader.ui (Uploader.handleFileUpload (Some file) w).1) = sheets).
Proof.
  intros Hread Hsheets.
  destruct (Array_map_spec _ _ _ Hsheets) as [Hlen Hnth].
  assert (Hentry : forall i sh, sheets !! i = Some sh ->
    SheetNames workbook !! i = Some (name sh) /\
    XLSX_utils_sheet_to_html (Sheets workbook !! name sh) = Ok (html sh)).
  { intros i sh Hi.
    destruct (SheetNames workbook !! i) as [sheetName|] eqn:En.
    - destruct (Hnth _ _ En) as (y & Hy & Hf). rewrite Hi in Hy.
      injection Hy as <-. cbn beta zeta in Hf.
      destruct (XLSX_utils_sheet_to_html (Sheets workbook !! sheetName))
        as [htmlTable|] eqn:Eh; [|discriminate].
      injection Hf as <-. cbn. by rewrite Eh.
    - apply lookup_ge_None in En. apply lookup_lt_Some in Hi. lia. }
  repeat apply conj.
  - apply list_eq. intros i. rewrite list_lookup_fmap.
    destruct (sheets !! i) as [sh|] eqn:Ei; cbn.
    + symmetry. by apply Hentry.
    + symmetry. apply lookup_ge_None. apply lookup_ge_None in Ei. lia.
  - intros i sh Hi. by apply (Hentry i).
  - intros i j [na ha] [nb hb] Ha Hb Hn. cbn in Hn. subst nb. f_equal.
    apply Hentry in Ha as [_ Ha], Hb as [_ Hb]. cbn in Ha, Hb. congruence.
  - by rewrite (renderExcel_ok _ _ _ _ Hread Hsheets).
  - by rewrite (renderExcel_ok _ _ _ _ Hread Hsheets).
  - intros Hbuf Hext.
    by rewrite (upload_excel _ w _ _ _ Hext Hbuf Hread Hsheets).
Qed.

End SpreadsheetNormalizer.

(** ** The properties on examples *)

Section Examples.
Import Stub.

Lemma renderDocx_without_underscores_witness :
  let arrayBuffer := lit "Dear Sir" in
  let html := lit "<p>Dear Sir</p>" in
  mammoth_convertToHtml convertImage_imgElement arrayBuffer = Ok html /\
  mammoth_extractRawText arrayBuffer = Ok arrayBuffer /\
  (UNDERSCORE ∉ arrayBuffer) /\
  Viewer.settled (Viewer.renderDocx arrayBuffer (lit "letter.docx")) = Ok tt /\
  Viewer.content
    (Viewer.run (Viewer.renderDocx arrayBuffer (lit "letter.docx"))
                Viewer.initial) = html.
Proof.
  intros arrayBuffer html.
  assert (H1 : mammoth_convertToHtml convertImage_imgElement arrayBuffer
               = Ok html) by reflexivity.
  assert (H2 : mammoth_extractRawText arrayBuffer = Ok arrayBuffer)
    by reflexivity.
  assert (H3 : UNDERSCORE ∉ arrayBuffer).
  { intros Hin%hasUnderscores_spec. discriminate Hin. }
  exact (conj H1 (conj H2 (conj H3
    (renderDocx_without_underscores arrayBuffer (lit "letter.docx")
       html arrayBuffer Viewer.initial H1 H2 H3)))).
Defined.

Lemma handleMessage_ignores_other_types_witness :
  let data := {| Viewer.msg_type := lit "PING"; Viewer.msg_fileType := lit "docx";
                 Viewer.msg_fileName := lit "a.docx";
                 Viewer.msg_fileData := lit "abc" |} in
  Viewer.msg_type data <> lit "FILE_DATA" /\
  Viewer.trace (Viewer.handleMessage data) = [] /\
  Viewer.run (Viewer.handleMessage data) Viewer.initial = Viewer.initial.
Proof.
  intros data.
  assert (H1 : Viewer.msg_type data <> lit "FILE_DATA") by discriminate.
  split; [exact H1|].
  exact (handleMessage_ignores_other_types data Viewer.initial H1).
Defined.

Lemma handleMessage_unknown_fileType_witness :
  let data := {| Viewer.msg_type := lit "FILE_DATA";
                 Viewer.msg_fileType := lit "pdf";
                 Viewer.msg_fileName := lit "a.pdf";
                 Viewer.msg_fileData := lit "JVBERi0=" |} in
  let st := Viewer.initial in
  let st' := Viewer.run (Viewer.handleMessage data) st in
  Viewer.msg_type data = lit "FILE_DATA" /\
  atob (Viewer.msg_fileData data) = Ok (lit "JVBERi0=") /\
  Viewer.msg_fileType data <> lit "docx" /\
  Viewer.msg_fileType data <> lit "xlsx" /\
  Viewer.settled (Viewer.handleMessage data) = Ok tt /\
  Viewer.trace (Viewer.handleMessage data) =
    [Viewer.SetLoading true; Viewer.SetError None; Viewer.SetLoading false] /\
  Viewer.loading st' = false /\ Viewer.error st' = None /\
  Viewer.fileData st' = Viewer.fileData st /\
  Viewer.content st' = Viewer.content st /\
  Viewer.excelSheets st' = Viewer.excelSheets st /\
  Viewer.selectedSheetIndex st' = Viewer.selectedSheetIndex st.
Proof.
  intros data st st'.
  assert (H1 : Viewer.msg_type data = lit "FILE_DATA") by reflexivity.
  assert (H2 : atob (Viewer.msg_fileData data) = Ok (lit "JVBERi0="))
    by reflexivity.
  assert (H3 : Viewer.msg_fileType data <> lit "docx") by discriminate.
  assert (H4 : Viewer.msg_fileType data <> lit "xlsx") by discriminate.
  exact (conj H1 (conj H2 (conj H3 (conj H4
    (handleMessage_unknown_fileType data (lit "JVBERi0=") st H1 H2 H3 H4))))).
Defined.

Lemma workbook_sheets_by_name_witness :
  let arrayBuffer := lit "1,2" in
  let fileName := lit "book.xlsx" in
  let workbook := {| SheetNames := [lit "Sheet1"];
                     Sheets := {[ lit "Sheet1" := arrayBuffer ]} |} in
  let sheets := [ {| name := lit "Sheet1"; html := lit "<table>1,2</table>" |} ] in
  let st := Viewer.initial in
  let file := {| Uploader.file_name := lit "Book.XLS";
                 Uploader.file_arrayBuffer := Ok arrayBuffer |} in
  let w := Uploader.start in
  XLSX_read arrayBuffer = Ok workbook /\
  workbook_sheets workbook = Ok sheets /\
  name <$> sheets = SheetNames workbook /\
  (forall i sh, sheets !! i = Some sh ->
     XLSX_utils_sheet_to_html (Sheets workbook !! name sh) = Ok (html sh)) /\
  (forall i j a b, sheets !! i = Some a -> sheets !! j = Some b ->
     name a = name b -> a = b) /\
  Viewer.excelSheets (Viewer.run (Viewer.renderExcel arrayBuffer fileName) st)
    = sheets /\
  Viewer.selectedSheetIndex
    (Viewer.run (Viewer.renderExcel arrayBuffer fileName) st) = 0%nat /\
  (Uploader.file_arrayBuffer file = Ok arrayBuffer ->
   Uploader.fileExtension file = Some (lit "xlsx") \/
   Uploader.fileExtension file = Some (lit "xls") ->
   Uploader.excelData
     (Uploader.ui (Uploader.handleFileUpload (Some file) w).1) = sheets).
Proof.
  intros arrayBuffer fileName workbook sheets st file w.
  assert (H1 : XLSX_read arrayBuffer = Ok workbook) by reflexivity.
  assert (H2 : workbook_sheets workbook = Ok sheets) by reflexivity.
  exact (conj H1 (conj H2
    (workbook_sheets_by_name arrayBuffer fileName workbook sheets st file w
       H1 H2))).
Defined.

(** C4, as the specification states it, fails: the workbook lists the name [Data]
    twice, and both entries carry the one worksheet that [Sheets] holds
    under that name. *)
Lemma duplicate_sheet_names_share_content :
  workbook_sheets twice_named =
  Ok [ {| name := lit "Data"; html := lit "<table>1,2</table>" |};
       {| name := lit "Data"; html := lit "<table>1,2</table>" |} ].
Proof. reflexivity. Qed.


(** With the same two sheets, the tab of the second sheet is there to
    click, and the click selects that sheet. *)
Example second_tab_selects_second_sheet :
  Viewer.render two_sheets =
    Viewer.XlsxScreen [(0%nat, lit "Sheet1"); (1%nat, lit "Sheet2")]
      {| name := lit "Sheet1"; html := lit "<table>1</table>" |} /\
  Viewer.click_tab 1 two_sheets = Viewer.setSelectedSheetIndex 1 two_sheets /\
  Viewer.render (Viewer.click_tab 1 two_sheets) =
    Viewer.XlsxScreen [(0%nat, lit "Sheet1"); (1%nat, lit "Sheet2")]
      {| name := lit "Sheet2"; html := lit "<table>2</table>" |}.
Proof. by repeat split. Qed.

Lemma settling_load_is_applied_unconditionally_witness :
  let data := first_message in
  let bytes := lit "one" in
  let pg0 := fresh_page in
  let i := 0%nat in
  let es1 := [Viewer.Deliver second_message;
              Viewer.Resume 1; Viewer.Resume 1; Viewer.Resume 1] in
  let es2 : list Viewer.event := [] in
  let es3 := [Viewer.Deliver second_message] in
  Viewer.msg_type data = lit "FILE_DATA" /\
  Viewer.msg_fileType data = lit "docx" /\
  atob (Viewer.msg_fileData data) = Ok bytes /\
  i = length (Viewer.in_flight pg0) /\
  Forall (fun e => e <> Viewer.Resume i) (es1 ++ es2 ++ es3) /\
  let pg1 := Viewer.steps es1 (Viewer.step (Viewer.Deliver data) pg0) in
  let pg2 := Viewer.steps es2 (Viewer.step (Viewer.Resume i) pg1) in
  let pg3 := Viewer.steps es3 (Viewer.step (Viewer.Resume i) pg2) in
  (forall html text,
     mammoth_convertToHtml convertImage_imgElement (Uint8Array bytes) = Ok html ->
     mammoth_extractRawText (Uint8Array bytes) = Ok text ->
     Viewer.view (Viewer.step (Viewer.Resume i) pg2) =
       {| Viewer.fileData :=
            Some {| Viewer.type := Viewer.docx;
                    Viewer.fileName := Viewer.msg_fileName data;
                    Viewer.sheets := None |};
          Viewer.content := processedHtml html text;
          Viewer.excelSheets := Viewer.excelSheets (Viewer.view pg2);
          Viewer.selectedSheetIndex :=
            Viewer.selectedSheetIndex (Viewer.view pg2);
          Viewer.loading := Viewer.loading (Viewer.view pg2);
          Viewer.error := Viewer.error (Viewer.view pg2) |} /\
     Viewer.view (Viewer.step (Viewer.Resume i) pg3) =
       {| Viewer.fileData := Viewer.fileData (Viewer.view pg3);
          Viewer.content := Viewer.content (Viewer.view pg3);
          Viewer.excelSheets := Viewer.excelSheets (Viewer.view pg3);
          Viewer.selectedSheetIndex :=
            Viewer.selectedSheetIndex (Viewer.view pg3);
          Viewer.loading := false;
          Viewer.error := Viewer.error (Viewer.view pg3) |}) /\
  (forall err,
     mammoth_convertToHtml convertImage_imgElement (Uint8Array bytes)
       = Throw err ->
     Viewer.view (Viewer.step (Viewer.Resume i) pg2) =
       {| Viewer.fileData := Viewer.fileData (Viewer.view pg2);
          Viewer.content := Viewer.content (Viewer.view pg2);
          Viewer.excelSheets := Viewer.excelSheets (Viewer.view pg2);
          Viewer.selectedSheetIndex :=
            Viewer.selectedSheetIndex (Viewer.view pg2);
          Viewer.loading := false;
          Viewer.error :=
            Some (message_or err (lit "Unknown error occurred")) |}) /\
  (forall html err,
     mammoth_convertToHtml convertImage_imgElement (Uint8Array bytes) = Ok html ->
     mammoth_extractRawText (Uint8Array bytes) = Throw err ->
     Viewer.view (Viewer.step (Viewer.Resume i) pg2) = Viewer.view pg2 /\
     Viewer.view (Viewer.step (Viewer.Resume i) pg3) =
       {| Viewer.fileData := Viewer.fileData (Viewer.view pg3);
          Viewer.content := Viewer.content (Viewer.view pg3);
          Viewer.excelSheets := Viewer.excelSheets (Viewer.view pg3);
          Viewer.selectedSheetIndex :=
            Viewer.selectedSheetIndex (Viewer.view pg3);
          Viewer.loading := false;
          Viewer.error :=
            Some (message_or err (lit "Unknown error occurred")) |}).
Proof.
  intros data bytes pg0 i es1 es2 es3.
  assert (H1 : Viewer.msg_type data = lit "FILE_DATA") by reflexivity.
  assert (H2 : Viewer.msg_fileType data = lit "docx") by reflexivity.
  assert (H3 : atob (Viewer.msg_fileData data) = Ok bytes) by reflexivity.
  assert (H4 : i = length (Viewer.in_flight pg0)) by reflexivity.
  assert (H5 : Forall (fun e => e <> Viewer.Resume i) (es1 ++ es2 ++ es3))
    by (repeat constructor; discriminate).
  exact (conj H1 (conj H2 (conj H3 (conj H4 (conj H5
    (settling_load_is_applied_unconditionally data bytes pg0 i es1 es2 es3
       H1 H2 H3 H4 H5)))))).
Defined.

(** C7, as the specification states it, fails.  The first load begins, the second
    begins before the first settles, and the second settles: the view shows
    the second document.  Then the first settles, and the view shows the
    first document again. *)
Lemma stale_load_overwrites_newer :
  let begun := [Viewer.Deliver first_message; Viewer.Deliver second_message] in
  let second_settles := [Viewer.Resume 1; Viewer.Resume 1; Viewer.Resume 1] in
  let first_settles := [Viewer.Resume 0; Viewer.Resume 0; Viewer.Resume 0] in
  Viewer.content
    (Viewer.view (Viewer.steps (begun ++ second_settles) fresh_page))
    = lit "<p>two</p>" /\
  Viewer.content
    (Viewer.view
       (Viewer.steps (begun ++ second_settles ++ first_settles) fresh_page))
    = lit "<p>one</p>" /\
  Viewer.fileName <$>
    Viewer.fileData
      (Viewer.view
         (Viewer.steps (begun ++ second_settles ++ first_settles) fresh_page))
    = Some (lit "first.docx").
Proof. repeat split. Qed.

(** C8, as the specification states it, fails: a PDF is chosen, the view is
    cleared, another PDF is chosen and the view is cleared again.  Two
    object URLs have been created and neither has been revoked. *)
Lemma pdf_url_not_revoked :
  let w := Uploader.acts
             [Uploader.ChooseFile (Some report_pdf); Uploader.ClearFile;
              Uploader.ChooseFile (Some report_pdf); Uploader.ClearFile]
             Uploader.start in
  Uploader.url_calls w =
    [Uploader.CreateObjectURL (blob_url 0); Uploader.CreateObjectURL (blob_url 1)]
  /\ Uploader.revoked (blob_url 0) w = 0%nat
  /\ Uploader.revoked (blob_url 1) w = 0%nat
  /\ Uploader.selectedFile (Uploader.ui w) = None.
Proof. repeat split. Qed.

End Examples.

(** * Further properties of the code *)

(** ** The DOCX passes only insert *)

Section Insertions.

Variable markers : list jsstring.

Lemma inserted_refl s : inserted markers s s.
Proof. induction s; by constructor. Qed.

Lemma inserted_app s1 out1 s2 out2 :
  inserted markers s1 out1 -> inserted markers s2 out2 ->
  inserted markers (s1 ++ s2) (out1 ++ out2).
Proof.
  intros H1 H2. induction H1; cbn.
  - exact H2.
  - by constructor.
  - rewrite <- app_assoc. by constructor.
Qed.

Lemma inserted_wrap m1 m2 s out :
  m1 ∈ markers -> m2 ∈ markers -> inserted markers s out ->
  inserted markers s (m1 ++ out ++ m2).
Proof.
  intros H1 H2 Hs. constructor; [exact H1|].
  rewrite <- (app_nil_r s). apply inserted_app; [exact Hs|].
  rewrite <- (app_nil_r m2). constructor; [exact H2|constructor].
Qed.

Lemma inserted_sublist s out : inserted markers s out -> s `sublist_of` out.
Proof.
  induction 1.
  - constructor.
  - by constructor.
  - by apply sublist_inserts_l.
Qed.

Lemma inserted_underscore_count s out :
  (forall m, m ∈ markers -> underscore_count m = 0%nat) ->
  inserted markers s out -> underscore_count out = underscore_count s.
Proof.
  intros Hm. unfold underscore_count in *. induction 1; cbn.
  - reflexivity.
  - destruct (c =? UNDERSCORE); cbn; by rewrite IHinserted.
  - rewrite List.filter_app, length_app, (Hm m) by assumption. exact IHinserted.
Qed.

Lemma replace_nil r replacer :
  replace r replacer [] =
  match exec_at r [] with Some _ => replacer [] | None => [] end.
Proof.
  unfold replace. cbn. destruct (exec_at r []); [|reflexivity].
  by rewrite take_nil, app_nil_r.
Qed.

Lemma replace_empty_match r replacer c s :
  exec_at r (c :: s) = Some 0%nat ->
  replace r replacer (c :: s) = replacer [] ++ c :: replace r replacer s.
Proof. unfold replace. cbn. by intros ->. Qed.

(** A global replacement whose replacer only adds markers around each
    match only adds markers to the string. *)
Lemma replace_inserted r replacer :
  (forall t n, exec_at r t = Some n ->
     inserted markers (take n t) (replacer (take n t))) ->
  forall s, inserted markers s (replace r replacer s).
Proof.
  intros Hrep s. remember (length s) as k eqn:Hk. revert s Hk.
  induction k as [k IH] using lt_wf_ind. intros s ->.
  destruct s as [|c s].
  - rewrite replace_nil. destruct (exec_at r []) as [n|] eqn:E; [|constructor].
    specialize (Hrep _ _ E). by rewrite take_nil in Hrep.
  - destruct (exec_at r (c :: s)) as [[|n]|] eqn:E.
    + rewrite (replace_empty_match _ _ _ _ E).
      change (c :: s) with ([] ++ c :: s).
      apply inserted_app; [exact (Hrep _ _ E)|].
      constructor. by apply (IH (length s)); [cbn; lia|].
    + rewrite (replace_match _ _ _ _ E).
      rewrite <- (take_drop (S n) (c :: s)) at 1.
      apply inserted_app; [exact (Hrep _ _ E)|].
      apply (IH (length (drop (S n) (c :: s)))); [|reflexivity].
      rewrite length_drop. cbn. lia.
    + rewrite (replace_no_match _ _ _ _ E). constructor.
      by apply (IH (length s)); [cbn; lia|].
Qed.

End Insertions.

Section DocxInsertions.

Lemma underscore_run_match t n :
  exec_at underscore_run t = Some n -> take n t = underscores n.
Proof.
  rewrite exec_underscore_run.
  destruct (3 <=? leading_underscores t)%nat; [|discriminate].
  intros [= <-]. destruct (leading_underscores_split t) as [Ht _].
  rewrite Ht at 2. apply take_app_length'.
  unfold underscores, repeat_char. by rewrite length_replicate.
Qed.

Lemma processedContent_inserted s :
  inserted docx_markers s (processedContent s).
Proof.
  apply replace_inserted. intros t n E.
  rewrite (underscore_run_match _ _ E). unfold wrap_underscores.
  replace (length (underscores n)) with n
    by (unfold underscores, repeat_char; by rewrite length_replicate).
  apply inserted_wrap; [left|right; left|apply inserted_refl].
Qed.

(** X1: the fragment that [renderDocx] stores is the converter's output
    with strings put in, each of them the opening or the closing tag of
    the marker span or of a paragraph.  No character of the converter's
    output is dropped, changed or moved, and no underscore is added. *)
Theorem processedHtml_only_inserts (htmlResult textResult : jsstring) :
  inserted docx_markers htmlResult (processedHtml htmlResult textResult) /\
  htmlResult `sublist_of` processedHtml htmlResult textResult /\
  underscore_count (processedHtml htmlResult textResult)
    = underscore_count htmlResult.
Proof.
  assert (Hins : inserted docx_markers htmlResult
                   (processedHtml htmlResult textResult)).
  { unfold processedHtml. destruct (hasUnderscores textResult);
      [|apply inserted_refl].
    apply replace_inserted. intros t n _. unfold wrap_paragraph.
    apply inserted_wrap;
      [right; right; left|right; right; right; left|].
    apply processedContent_inserted. }
  split; [exact Hins|]. split; [by apply inserted_sublist with docx_markers|].
  apply inserted_underscore_count with docx_markers; [|exact Hins].
  intros m Hm. unfold docx_markers in Hm.
  repeat (apply elem_of_cons in Hm; destruct Hm as [->|Hm]; [reflexivity|]).
  by apply elem_of_nil in Hm.
Qed.

End DocxInsertions.

(** ** Fragments the DOCX passes leave alone *)

Section DocxUnchanged.

Lemma index_of_cons_None p c s :
  index_of p (c :: s) = None ->
  starts_with p (c :: s) = false /\ index_of p s = None.
Proof.
  cbn [index_of]. destruct (starts_with p (c :: s)); [discriminate|].
  by destruct (index_of p s).
Qed.

Lemma index_of_drop_None p k : forall s,
  index_of p s = None -> index_of p (drop k s) = None.
Proof.
  induction k as [|k IH]; intros s Hs; [by rewrite drop_0|].
  destruct s as [|c s]; [exact Hs|].
  cbn [drop]. apply IH. by apply index_of_cons_None in Hs as [_ Hs].
Qed.

Lemma replace_never_matching r replacer : forall s,
  (forall k, exec_at r (drop k s) = None) -> replace r replacer s = s.
Proof.
  induction s as [|c s IH]; intros Hs.
  - rewrite replace_nil. pose proof (Hs 0%nat) as H0. cbn in H0.
    by rewrite H0.
  - rewrite replace_no_match by exact (Hs 0%nat). f_equal.
    apply IH. intros k. exact (Hs (S k)).
Qed.

(** X2: a fragment with no [<p>], or with no [</p>], is stored as the
    converter returned it, whatever the extracted text holds. *)
Theorem processedHtml_without_paragraph (htmlResult textResult : jsstring) :
  index_of p_open htmlResult = None \/ index_of p_close htmlResult = None ->
  processedHtml htmlResult textResult = htmlResult.
Proof.
  intros Hno. unfold processedHtml.
  destruct (hasUnderscores textResult); [|reflexivity].
  apply replace_never_matching. intros k. rewrite exec_paragraph.
  destruct Hno as [Hopen|Hclose].
  - apply (index_of_drop_None _ k) in Hopen.
    destruct (drop k htmlResult) as [|c s]; [reflexivity|].
    apply index_of_cons_None in Hopen as [-> _]. reflexivity.
  - apply (index_of_drop_None _ (k + 3)) in Hclose.
    rewrite <- drop_drop in Hclose. rewrite Hclose.
    by destruct (starts_with p_open (drop k htmlResult)).
Qed.

Lemma processedHtml_without_paragraph_witness :
  let htmlResult := lit "<h1>Name: _____</h1><ul><li>a_b</li></ul>" in
  let textResult := lit "Name: _____" in
  (index_of p_open htmlResult = None \/ index_of p_close htmlResult = None) /\
  processedHtml htmlResult textResult = htmlResult.
Proof.
  intros htmlResult textResult.
  assert (H1 : index_of p_open htmlResult = None
               \/ index_of p_close htmlResult = None) by (left; reflexivity).
  exact (conj H1 (processedHtml_without_paragraph htmlResult textResult H1)).
Defined.

Lemma starts_with_underscores3 s :
  starts_with (underscores 3) s = (3 <=? leading_underscores s)%nat.
Proof.
  destruct s as [|c1 [|c2 [|c3 s]]]; cbn;
    repeat match goal with
           | |- context [?c =? UNDERSCORE] => destruct (c =? UNDERSCORE); cbn
           end; reflexivity.
Qed.

Lemma processedContent_length s :
  (length s <= length (processedContent s))%nat.
Proof.
  apply sublist_length, inserted_sublist with docx_markers,
    processedContent_inserted.
Qed.

Lemma processedContent_grows s i :
  index_of (underscores 3) s = Some i ->
  (length s < length (processedContent s))%nat.
Proof.
  revert i. induction s as [|c s IH]; intros i Hi; [discriminate|].
  pose proof (exec_underscore_run (c :: s)) as E.
  cbn [index_of] in Hi. rewrite starts_with_underscores3 in Hi.
  remember (leading_underscores (c :: s)) as L eqn:HL. clear HL.
  destruct (3 <=? L)%nat eqn:E3.
  - apply Nat.leb_le in E3. destruct L as [|n]; [lia|].
    pose proof (processedContent_length (drop (S n) (c :: s))) as Hd.
    rewrite length_drop in Hd.
    pose proof (exec_at_le _ _ _ E) as Hle.
    unfold processedContent in *. rewrite (replace_match _ _ _ _ E).
    rewrite length_app. unfold wrap_underscores at 1. unfold repeat_char.
    rewrite !length_app, length_replicate, length_take.
    change (length span_close) with 7%nat. lia.
  - unfold processedContent in *. rewrite (replace_no_match _ _ _ _ E).
    destruct (index_of (underscores 3) s) as [i'|]; [|discriminate].
    specialize (IH _ eq_refl). cbn. lia.
Qed.

(** X3: the underscore pass returns its input unchanged exactly when the
    input has no three underscores in a row. *)
Theorem processedContent_unchanged_iff (content : jsstring) :
  processedContent content = content <->
  index_of (underscores 3) content = None.
Proof.
  split.
  - intros Heq. destruct (index_of (underscores 3) content) as [i|] eqn:E;
      [|reflexivity].
    apply processedContent_grows in E. rewrite Heq in E. lia.
  - intros Hno. apply replace_never_matching. intros k.
    apply (index_of_drop_None _ k) in Hno.
    rewrite exec_underscore_run, <- starts_with_underscores3.
    destruct (drop k content) as [|c s]; [reflexivity|].
    by apply index_of_cons_None in Hno as [-> _].
Qed.

End DocxUnchanged.

(** ** The message handler of the viewer, on every path *)

Section ViewerPaths.
Import Viewer ViewerMore.
Context `{Libraries}.

Lemma handleMessage_try_catch (data : FlutterMessage) :
  handleMessage data =
  if decide (msg_type data = lit "FILE_DATA")
  then try_catch (try_block data) catch_clause
  else mret tt.
Proof. reflexivity. Qed.

(** Follows [handleMessage] or [try_block] down every path. *)
Ltac follow_paths data :=
  unfold try_block; cbv zeta;
  destruct (atob (msg_fileData data)) as [bytes|err_atob];
    cbn [mbind async_bind sync call try_catch]; [|];
  [destruct (decide (msg_fileType data = lit "docx"));
   [unfold await_call, renderDocx;
    destruct (mammoth_convertToHtml convertImage_imgElement (Uint8Array bytes))
      as [html|err_html];
    cbn [mbind async_bind await]; [|];
    [destruct (mammoth_extractRawText (Uint8Array bytes)) as [text|err_text]|]
   |destruct (decide (msg_fileType data = lit "xlsx"));
    [unfold await_call, renderExcel;
     destruct (XLSX_read (Uint8Array bytes)) as [workbook|err_read];
     cbn [mbind async_bind sync]; [|];
     [destruct (workbook_sheets workbook) as [sheets|err_sheet]|]
    |]]
  |].

(** X4: the message handler rejects only for a message without data.
    When [event.data] is [null] or [undefined], reading its [type] throws
    before the [try]: the handler is rejected with that TypeError and has
    called no setter.  For every other message, whatever the libraries
    return or throw, it ends normally; and when the message is of type
    ['FILE_DATA'] its last call is [setLoading(false)], so the viewer is
    left not loading. *)
Theorem handleMessage_rejects_only_without_data
  (event_data : MessageData) (st : state) :
  match event_data with
  | Object data =>
      settled (handleMessage event_data) = Ok tt /\
      (msg_type data = lit "FILE_DATA" ->
       last (trace (handleMessage event_data)) = Some (SetLoading false) /\
       loading (run (handleMessage event_data) st) = false)
  | Null =>
      handleMessage event_data = ([], Throw (cannot_read_type (lit "null"))) /\
      run (handleMessage event_data) st = st
  | Undefined =>
      handleMessage event_data
        = ([], Throw (cannot_read_type (lit "undefined"))) /\
      run (handleMessage event_data) st = st
  end.
Proof.
  destruct event_data as [| |data]; [by split|by split|].
  rewrite handleMessage_try_catch. unfold run.
  destruct (decide (msg_type data = lit "FILE_DATA")) as [Hty|Hty];
    [|split; [reflexivity|contradiction]].
  follow_paths data; (split; [reflexivity|intros _; split; reflexivity]).
Qed.

(** X5: all or nothing.  Whatever throws inside the [try] block (the
    base64 decoding, a DOCX conversion, the workbook parser, a sheet
    conversion), the viewer ends not loading, with the message of the error
    (or ['Unknown error occurred']) stored, and with file data, content,
    sheets and selected index as they were.  The error screen shows the
    message, unless the message is empty: then the screen is the one the
    state before gives, as if nothing had failed. *)
Theorem failed_load_stores_nothing
  (data : FlutterMessage) (st : state) (err : thrown) :
  msg_type data = lit "FILE_DATA" ->
  settled (try_block data) = Throw err ->
  let message := message_or err (lit "Unknown error occurred") in
  let st' := run (handleMessage data) st in
  st' = {| fileData := fileData st; content := content st;
           excelSheets := excelSheets st;
           selectedSheetIndex := selectedSheetIndex st;
           loading := false; error := Some message |} /\
  render st' =
    match message with
    | [] => render {| fileData := fileData st; content := content st;
                      excelSheets := excelSheets st;
                      selectedSheetIndex := selectedSheetIndex st;
                      loading := false; error := None |}
    | _ :: _ => ErrorScreen message
    end.
Proof.
  intros Hty Hthrow message st'.
  assert (Hst : st' = {| fileData := fileData st; content := content st;
           excelSheets := excelSheets st;
           selectedSheetIndex := selectedSheetIndex st;
           loading := false; error := Some message |}).
  { unfold st', message, run. rewrite handleMessage_try_catch.
    rewrite decide_True by exact Hty. revert Hthrow.
    follow_paths data; intros Hthrow; try discriminate Hthrow;
      injection Hthrow as ->; reflexivity. }
  split; [exact Hst|]. rewrite Hst. unfold render. cbn.
  by destruct message.
Qed.

(** X6: a DOCX message whose payload decodes and converts.  Whatever the
    viewer showed or had stored (a failed load, a workbook), it ends not
    loading, with no error and with the processed fragment as content, and
    the screen is the document; sheets and selected index stay as they
    were. *)
Theorem docx_message_shows_document
  (data : FlutterMessage) (bytes html text : jsstring) (st : state) :
  msg_type data = lit "FILE_DATA" ->
  msg_fileType data = lit "docx" ->
  atob (msg_fileData data) = Ok bytes ->
  mammoth_convertToHtml convertImage_imgElement (Uint8Array bytes) = Ok html ->
  mammoth_extractRawText (Uint8Array bytes) = Ok text ->
  let st' := run (handleMessage data) st in
  st' = {| fileData := Some {| type := docx; fileName := msg_fileName data;
                               sheets := None |};
           content := processedHtml html text;
           excelSheets := excelSheets st;
           selectedSheetIndex := selectedSheetIndex st;
           loading := false; error := None |} /\
  render st' = DocxScreen (processedHtml html text).
Proof.
  intros Hty Hft Hatob Hhtml Htext st'.
  assert (Hst : st' = {| fileData := Some {| type := docx;
                               fileName := msg_fileName data; sheets := None |};
           content := processedHtml html text;
           excelSheets := excelSheets st;
           selectedSheetIndex := selectedSheetIndex st;
           loading := false; error := None |}).
  { unfold st', run.
    by rewrite (handleMessage_docx _ _ _ _ Hty Hft Hatob Hhtml Htext). }
  split; [exact Hst|]. by rewrite Hst.
Qed.

(** X7: an XLSX message whose payload decodes, parses and converts.  The
    viewer ends not loading, with no error, the sheet list stored and its
    first sheet selected, whatever index was selected before; the content
    cell is not touched.  The screen shows the first sheet, with one tab
    per sheet when there are at least two and no tab for a single sheet;
    for a workbook without sheets the component renders nothing. *)
Theorem xlsx_message_shows_first_sheet
  (data : FlutterMessage) (bytes : jsstring) (workbook : WorkBook WorkSheet)
  (sheets : list sheet) (st : state) :
  msg_type data = lit "FILE_DATA" ->
  msg_fileType data = lit "xlsx" ->
  atob (msg_fileData data) = Ok bytes ->
  XLSX_read (Uint8Array bytes) = Ok workbook ->
  workbook_sheets workbook = Ok sheets ->
  let st' := run (handleMessage data) st in
  st' = {| fileData := Some {| type := xlsx; fileName := msg_fileName data;
                               sheets := Some sheets |};
           content := content st;
           excelSheets := sheets;
           selectedSheetIndex := 0;
           loading := false; error := None |} /\
  render st' =
    match sheets with
    | [] => NoScreen
    | [only] => XlsxScreen [] only
    | first :: _ :: _ =>
        XlsxScreen (imap (fun idx sh => (idx, name sh)) sheets) first
    end.
Proof.
  intros Hty Hft Hatob Hread Hsheets st'.
  assert (Hst : st' = {| fileData := Some {| type := xlsx;
                               fileName := msg_fileName data;
                               sheets := Some sheets |};
           content := content st;
           excelSheets := sheets;
           selectedSheetIndex := 0;
           loading := false; error := None |}).
  { unfold st', run, handleMessage. cbv zeta.
    rewrite decide_True by exact Hty. rewrite Hatob.
    cbn [mbind async_bind sync call try_catch].
    rewrite decide_False by (rewrite Hft; discriminate).
    rewrite decide_True by exact Hft.
    unfold await_call. rewrite (renderExcel_ok _ _ _ _ Hread Hsheets).
    reflexivity. }
  split; [exact Hst|]. rewrite Hst.
  by destruct sheets as [|first [|second rest]].
Qed.

(** *** The selected sheet *)

Lemma handleMessage_keeps_index (event_data : MessageData) :
  Forall keeps_index (segments (trace (handleMessage event_data))).
Proof.
  destruct event_data as [| |data];
    [cbn; apply Forall_cons_2; [by intros st Hst|constructor]..|].
  assert (Hkeep : forall ops,
    (forall o, o ∈ ops ->
       match o with
       | SetExcelSheets _ | SetSelectedSheetIndex _ => False
       | _ => True
       end) -> keeps_index ops).
  { intros ops. unfold keeps_index, run_ops.
    induction ops as [|o ops IH]; intros Hops st Hst; [exact Hst|].
    cbn [foldl]. apply IH; [intros o' Ho'; apply Hops; by right|].
    specialize (Hops o (list_elem_of_here _ _)).
    destruct o; try contradiction; exact Hst. }
  assert (Hstore : forall fd shs,
    keeps_index [SetLoading true; SetError None; SetFileData fd;
                 SetExcelSheets shs; SetSelectedSheetIndex 0]).
  { intros fd shs st _. unfold index_in_bounds. cbn.
    destruct shs; [by left|right; cbn; lia]. }
  rewrite handleMessage_try_catch.
  destruct (decide (msg_type data = lit "FILE_DATA")) as [Hty|Hty];
    [|cbn; apply Forall_cons_2; [by intros st Hst|constructor]].
  follow_paths data; cbn [trace fst segments app];
    repeat first
      [ apply Forall_nil_2
      | apply Forall_cons_2;
        [first [ apply Hstore
               | apply Hkeep; intros o Ho;
                 repeat (apply elem_of_cons in Ho; destruct Ho as [->|Ho];
                         [exact I|]);
                 by apply elem_of_nil in Ho ]|] ].
Qed.

Lemma tab_index_lt (st : state) tabs current idx label :
  render st = XlsxScreen tabs current ->
  (idx, label) ∈ tabs ->
  (idx < length (excelSheets st))%nat.
Proof.
  unfold render. intros Hrender Hin.
  destruct (loading st); [discriminate|].
  destruct (truthy (error st)); [discriminate|].
  destruct (fileData st) as [fd|]; [|discriminate].
  destruct (type fd); [discriminate|].
  destruct (0 <? length (excelSheets st))%nat; [|discriminate].
  destruct (excelSheets st !! selectedSheetIndex st); [|discriminate].
  injection Hrender as <- _.
  destruct (1 <? length (excelSheets st))%nat; [|by apply elem_of_nil in Hin].
  apply list_elem_of_lookup in Hin as [i Hi]. rewrite list_lookup_imap in Hi.
  destruct (excelSheets st !! i) as [sh|] eqn:Esh; [|discriminate].
  cbn in Hi. injection Hi as -> _. by apply lookup_lt_Some in Esh.
Qed.

Lemma reachable_keeps_index (pg : page) :
  reachable pg ->
  index_in_bounds (view pg) /\ Forall (Forall keeps_index) (in_flight pg).
Proof.
  induction 1 as [|e pg _ [Hview Hfl]|pg tabs current idx label _ [Hview Hfl]
                    Hrender Hin].
  - split; [by left|constructor].
  - destruct e as [data|i]; cbn [step].
    + pose proof (handleMessage_keeps_index data) as Hsegs.
      destruct (segments (trace (handleMessage data))) as [|first later];
        [by split|].
      apply Forall_cons in Hsegs as [Hfirst Hlater]. cbn. split.
      * by apply Hfirst.
      * apply Forall_app. split; [exact Hfl|by constructor].
    + destruct (in_flight pg !! i) as [[|seg later]|] eqn:Ei; try by split.
      pose proof (Forall_lookup_1 _ _ _ _ Hfl Ei) as Hsegs.
      apply Forall_cons in Hsegs as [Hseg Hlater]. cbn. split.
      * by apply Hseg.
      * by apply Forall_insert.
  - cbn. split; [|exact Hfl]. right. cbn.
    exact (tab_index_lt _ _ _ _ _ Hrender Hin).
Qed.

(** X8: on every page the viewer can come to, through any messages, any
    order in which the awaited promises settle and any clicks on the tabs
    shown, the selected index names a sheet of the list whenever the list
    is not empty; so the component never throws while rendering, and the
    sheet that the sheet screen shows is the selected sheet of the list. *)
Theorem sheet_screen_has_a_sheet (pg : page) :
  reachable pg ->
  index_in_bounds (view pg) /\
  (forall err, render (view pg) <> RenderThrows err) /\
  forall tabs currentSheet,
    render (view pg) = XlsxScreen tabs currentSheet ->
    excelSheets (view pg) !! selectedSheetIndex (view pg) = Some currentSheet.
Proof.
  intros Hreach. destruct (reachable_keeps_index pg Hreach) as [Hin _].
  split; [exact Hin|]. unfold render.
  destruct (loading (view pg)); [by split|].
  destruct (truthy (error (view pg))); [by split|].
  destruct (fileData (view pg)) as [fd|]; [|by split].
  destruct (type fd); [by split|].
  destruct (0 <? length (excelSheets (view pg)))%nat eqn:E0; [|by split].
  apply Nat.ltb_lt in E0.
  destruct Hin as [Hnil|Hlt]; [rewrite Hnil in E0; cbn in E0; lia|].
  apply lookup_lt_is_Some_2 in Hlt as [sh Hsh]. rewrite Hsh.
  split; [discriminate|]. by intros tabs currentSheet [= _ <-].
Qed.

(** *** The spinner *)

Lemma segments_last (ops : list op) (o : op) :
  last ops = Some o -> o <> Suspend ->
  exists seg, last (segments ops) = Some seg /\ last seg = Some o.
Proof.
  intros Hlast Ho. induction ops as [|o' ops IH]; [discriminate|].
  destruct ops as [|o'' ops].
  - injection Hlast as ->. exists [o]. by destruct o.
  - destruct (IH Hlast) as (seg & Hseg & Hseg'). clear IH Hlast.
    remember (o'' :: ops) as rest eqn:Hrest. clear Hrest.
    assert (Hstep : segments (o' :: rest) =
      match o' with
      | Suspend => [] :: segments rest
      | _ => match segments rest with
             | seg0 :: segs => (o' :: seg0) :: segs
             | [] => [[o']]
             end
      end) by (by destruct o').
    rewrite Hstep. clear Hstep.
    destruct (segments rest) as [|seg0 [|seg1 segs]]; [discriminate| |].
    + injection Hseg as ->.
      destruct seg as [|o1 seg]; [discriminate|].
      destruct o';
        first [ by exists (o1 :: seg)
              | eexists (_ :: o1 :: seg); split; [reflexivity|exact Hseg'] ].
    + destruct o'; exists seg; (split; [exact Hseg|exact Hseg']).
Qed.

Lemma run_ops_ends_loading (ops : list op) (st : state) :
  last ops = Some (SetLoading false) -> loading (run_ops ops st) = false.
Proof.
  intros Hlast. apply last_Some in Hlast as [ops' ->].
  unfold run_ops. by rewrite foldl_app.
Qed.

Lemma handleMessage_last (data : FlutterMessage) :
  msg_type data = lit "FILE_DATA" ->
  last (trace (handleMessage data)) = Some (SetLoading false).
Proof.
  intros Hty. rewrite handleMessage_try_catch.
  destruct (decide (msg_type data = lit "FILE_DATA")); [|contradiction].
  follow_paths data; reflexivity.
Qed.

Lemma render_loading (st : state) :
  render st = LoadingScreen <-> loading st = true.
Proof.
  unfold render. destruct (loading st); [done|].
  split; [|discriminate].
  destruct (truthy (error st)); [discriminate|].
  destruct (fileData st) as [fd|]; [|discriminate].
  destruct (type fd); [discriminate|].
  destruct (0 <? length (excelSheets st))%nat; [|discriminate].
  destruct (excelSheets st !! selectedSheetIndex st); discriminate.
Qed.

Lemma reachable_spinner (pg : page) :
  reachable pg ->
  Forall ends_loading (in_flight pg) /\
  (loading (view pg) = true -> view pg = initial \/ pending pg).
Proof.
  induction 1 as [|e pg _ [Hfl Hview]|pg tabs current idx label _ [Hfl Hview]
                    Hrender Hin].
  - split; [constructor|by left].
  - destruct e as [[| |data]|i]; cbn [step].
    + cbn. split.
      * apply Forall_app. split; [exact Hfl|].
        constructor; [by left|constructor].
      * intros Hl. destruct (Hview Hl) as [Hi|(later & Hlater & Hne)];
          [by left|right].
        exists later. split; [|exact Hne]. apply elem_of_app. by left.
    + cbn. split.
      * apply Forall_app. split; [exact Hfl|].
        constructor; [by left|constructor].
      * intros Hl. destruct (Hview Hl) as [Hi|(later & Hlater & Hne)];
          [by left|right].
        exists later. split; [|exact Hne]. apply elem_of_app. by left.
    + destruct (decide (msg_type data = lit "FILE_DATA")) as [Hty|Hty].
      * destruct (segments_last _ _ (handleMessage_last data Hty))
          as (seg & Hseg & Hseg'); [discriminate|].
        destruct (segments (trace (handleMessage data))) as [|first later];
          [discriminate|].
        cbn [view in_flight]. destruct later as [|next later].
        -- injection Hseg as ->. split.
           ++ apply Forall_app. split; [exact Hfl|].
              constructor; [by left|constructor].
           ++ rewrite (run_ops_ends_loading _ _ Hseg'). discriminate.
        -- split.
           ++ apply Forall_app. split; [exact Hfl|].
              constructor; [|constructor]. right. by exists seg.
           ++ intros _. right. exists (next :: later). split; [|discriminate].
              apply elem_of_app. right. apply list_elem_of_here.
      * rewrite handleMessage_try_catch.
        destruct (decide (msg_type data = lit "FILE_DATA")); [contradiction|].
        cbn. split.
        -- apply Forall_app. split; [exact Hfl|].
           constructor; [by left|constructor].
        -- intros Hl. destruct (Hview Hl) as [Hi|(later & Hlater & Hne)];
             [by left|right].
           exists later. split; [|exact Hne]. apply elem_of_app. by left.
    + destruct (in_flight pg !! i) as [[|seg later]|] eqn:Ei; try by split.
      pose proof (Forall_lookup_1 _ _ _ _ Hfl Ei) as [|(s & Hs & Hs')];
        [discriminate|].
      cbn [view in_flight]. destruct later as [|next later].
      * injection Hs as ->. split.
        -- apply Forall_insert; [exact Hfl|by left].
        -- rewrite (run_ops_ends_loading _ _ Hs'). discriminate.
      * split.
        -- apply Forall_insert; [exact Hfl|]. right. by exists s.
        -- intros _. right. exists (next :: later). split; [|discriminate].
           apply list_elem_of_lookup. exists i. cbn [in_flight].
           apply list_lookup_insert_eq. by apply lookup_lt_Some in Ei.
  - cbn [view in_flight]. split; [exact Hfl|].
    intros Hl. exfalso.
    assert (Hload : loading (view pg) = true) by exact Hl.
    apply render_loading in Hload. rewrite Hload in Hrender. discriminate.
Qed.

(** X18: the spinner does not outlive the loads.  On every page the viewer
    can come to, when the loading screen is shown either no ['FILE_DATA']
    message has been handled yet (the state is the initial one) or some
    handler that has begun has still to resume: once every awaited promise
    has settled, the screen is not the loading one. *)
Theorem spinner_only_while_pending (pg : page) :
  reachable pg ->
  render (view pg) = LoadingScreen ->
  view pg = initial \/ pending pg.
Proof.
  intros Hreach Hrender. apply render_loading in Hrender.
  by apply (reachable_spinner pg Hreach).
Qed.

(** X19: between a message and the first promise.  A ['FILE_DATA'] message
    for a DOCX or an XLSX file whose payload decodes puts the loading
    screen in place of whatever was shown and drops the error of before,
    and its handler stays suspended; for a DOCX file nothing else is
    written until the converter's promise settles. *)
Theorem delivered_load_shows_spinner
  (data : FlutterMessage) (byteCharacters : jsstring) (pg : page) :
  msg_type data = lit "FILE_DATA" ->
  atob (msg_fileData data) = Ok byteCharacters ->
  msg_fileType data = lit "docx" \/ msg_fileType data = lit "xlsx" ->
  let pg' := step (Deliver data) pg in
  render (view pg') = LoadingScreen /\
  error (view pg') = None /\
  (exists later, in_flight pg' = in_flight pg ++ [later] /\ later <> []) /\
  (msg_fileType data = lit "docx" ->
   view pg' = {| fileData := fileData (view pg); content := content (view pg);
                 excelSheets := excelSheets (view pg);
                 selectedSheetIndex := selectedSheetIndex (view pg);
                 loading := true; error := None |}).
Proof.
  intros Hty Hatob Hft pg'. unfold pg'. cbn [step].
  rewrite handleMessage_try_catch.
  destruct (decide (msg_type data = lit "FILE_DATA")); [|contradiction].
  follow_paths data; try discriminate Hatob;
    try (destruct Hft as [Hft|Hft]; [contradiction|]);
    try (destruct Hft as [Hft|Hft]; [|contradiction]);
    try (destruct Hft; contradiction);
    cbn [trace fst segments app view in_flight];
    (split; [reflexivity|]); (split; [reflexivity|]);
    (split; [eexists; split; [reflexivity|discriminate]|]);
    intros Hdocx; try reflexivity;
    match goal with
    | H : msg_fileType data = lit "xlsx" |- _ =>
        rewrite H in Hdocx; vm_compute in Hdocx; discriminate Hdocx
    | H : msg_fileType data <> lit "docx" |- _ => contradiction
    end.
Qed.

End ViewerPaths.

(** ** The upload handler, on every path *)

Section UploaderPaths.
Import Uploader UploaderView.
Context `{Libraries}.

(** Follows [handleFileUpload] down every path. *)
Ltac follow_upload file :=
  unfold handleFileUpload; cbv zeta;
  repeat case_decide;
  lazy beta iota zeta delta
    [try_catch_finally setError setIsLoading setSelectedFile setFileContent
     setExcelData setFileType update lib URL_createObjectURL
     mbind handler_bind mret handler_ret fst snd
     ui url_calls selectedFile fileContent fileType isLoading error excelData];
  try match goal with
      | |- context [file_arrayBuffer file] =>
          destruct (file_arrayBuffer file) as [arrayBuffer|err_buffer];
          [match goal with
           | |- context [mammoth_convertToHtml no_options arrayBuffer] =>
               destruct (mammoth_convertToHtml no_options arrayBuffer)
                 as [html|err_html]
           | |- context [XLSX_read arrayBuffer] =>
               destruct (XLSX_read arrayBuffer) as [workbook|err_read];
               [destruct (workbook_sheets workbook) as [sheets|err_sheet]|]
           end|]
      end.


Lemma handleFileUpload_try (file : File) :
  handleFileUpload (Some file) =
  (reset_for file;;
   try_catch_finally (try_block file)
     (fun err =>
        setError (lit "Error loading file: " ++
                  message_or err (lit "Unknown error")))
     (setIsLoading false)).
Proof. reflexivity. Qed.



(** X12: choosing a file and then clearing brings the uploader back to its
    initial state, whatever it held before and whatever the load did: the
    screen is the empty upload panel again. *)
Theorem upload_then_clear_is_initial (file : File) (w : world) :
  let w' := acts [ChooseFile (Some file); ClearFile] w in
  ui w' = initial /\ render (ui w') = UploadPanel None false.
Proof.
  cbv zeta. unfold acts, act. cbn [foldl]. unfold handleClearFile.
  follow_upload file; by split.
Qed.


(** *** The object URLs *)

Lemma act_url_calls_exact (a : action) (w : world) :
  url_calls (act a w) =
  url_calls w ++
  (if is_pdf_choice a
   then [CreateObjectURL
           (blob_url (length (List.filter is_create (url_calls w))))]
   else []).
Proof.
  destruct a as [[file|]|]; cbn [act is_pdf_choice];
    [|by rewrite app_nil_r|by rewrite app_nil_r].
  destruct (bool_decide (fileExtension file = Some (lit "pdf"))) eqn:Epdf.
  - apply bool_decide_eq_true in Epdf. by rewrite (upload_pdf _ _ Epdf).
  - apply bool_decide_eq_false in Epdf. rewrite app_nil_r.
    follow_upload file; first [reflexivity|contradiction].
Qed.

(** X14: the calls on the object-URL store.  From the start of the page,
    after any sequence of file choices and clears, the calls made are
    exactly one [createObjectURL] per PDF chosen, in the order of the
    choices, and nothing else: files of other types create no URL, and
    clearing makes no call. *)
Theorem object_url_calls_are_the_pdf_choices (l : list action) :
  url_calls (acts l start) =
  (fun k => CreateObjectURL (blob_url k))
    <$> seq 0 (length (List.filter is_pdf_choice l)).
Proof.
  assert (Hcount : forall n,
    length (List.filter is_create
              ((fun k => CreateObjectURL (blob_url k)) <$> seq 0 n)) = n).
  { intros n. generalize 0%nat.
    induction n as [|n IH]; intros k; [reflexivity|]. cbn. by rewrite IH. }
  assert (Hgen : forall l' w n,
    url_calls w = (fun k => CreateObjectURL (blob_url k)) <$> seq 0 n ->
    url_calls (acts l' w) =
    (fun k => CreateObjectURL (blob_url k))
      <$> seq 0 (n + length (List.filter is_pdf_choice l'))).
  { induction l' as [|a l' IH]; intros w n Hw.
    - cbn. by rewrite Nat.add_0_r.
    - unfold acts in *. cbn [foldl List.filter].
      destruct (is_pdf_choice a) eqn:Ea.
      + cbn [length]. rewrite Nat.add_succ_r, <- Nat.add_succ_l.
        apply IH. rewrite act_url_calls_exact, Ea, Hw, Hcount.
        by rewrite seq_S, fmap_app.
      + apply IH. by rewrite act_url_calls_exact, Ea, app_nil_r. }
  exact (Hgen l start 0%nat eq_refl).
Qed.


Lemma lower_unit_dot c : lower_unit c = DOT <-> c = DOT.
Proof.
  unfold lower_unit, DOT.
  destruct (N.leb_spec 65 c), (N.leb_spec c 90); cbn; lia.
Qed.

Lemma split_toLowerCase (s : jsstring) :
  split DOT (toLowerCase s) = (fun piece => toLowerCase piece) <$> split DOT s.
Proof.
  induction s as [|c s IH]; [reflexivity|].
  change (toLowerCase (c :: s)) with (lower_unit c :: toLowerCase s).
  cbn [split]. rewrite IH.
  destruct (N.eqb_spec c DOT) as [->|Hc].
  - reflexivity.
  - destruct (N.eqb_spec (lower_unit c) DOT) as [E|_];
      [apply (proj1 (lower_unit_dot c)) in E; contradiction|].
    by destruct (split DOT s).
Qed.

(** X17: the upload handler looks at the file name through its lowered
    extension only.  Two files whose names are equal up to the case of
    the letters A-Z, and whose bytes read the same, leave the uploader in the
    same state but for the file selected, and make the same calls on the
    object-URL store. *)
Theorem upload_depends_on_lowered_name (file1 file2 : File) (w : world) :
  toLowerCase (file_name file1) = toLowerCase (file_name file2) ->
  file_arrayBuffer file1 = file_arrayBuffer file2 ->
  let w1 := (handleFileUpload (Some file1) w).1 in
  let w2 := (handleFileUpload (Some file2) w).1 in
  fileExtension file1 = fileExtension file2 /\
  fileContent (ui w1) = fileContent (ui w2) /\
  fileType (ui w1) = fileType (ui w2) /\
  error (ui w1) = error (ui w2) /\
  excelData (ui w1) = excelData (ui w2) /\
  isLoading (ui w1) = isLoading (ui w2) /\
  url_calls w1 = url_calls w2.
Proof.
  intros Hname Hbuf w1 w2.
  assert (Hext : fileExtension file1 = fileExtension file2).
  { assert (Hlow : forall f, fileExtension f
                     = pop (split DOT (toLowerCase (file_name f)))).
    { intros f. unfold fileExtension, pop.
      rewrite split_toLowerCase, fmap_last. reflexivity. }
    by rewrite !Hlow, Hname. }
  split; [exact Hext|].
  unfold w1, w2, handleFileUpload. cbv zeta. rewrite Hext, Hbuf.
  follow_upload file2; by repeat split.
Qed.

End UploaderPaths.

(** ** The byte buffer of a message *)

Section ByteBuffer.
Import Bytes.

Lemma fill_spec (byteCharacters : jsstring) : forall remaining i,
  (i + remaining = length byteCharacters)%nat ->
  fill byteCharacters remaining i
       ((Some <$> take i byteCharacters) ++ replicate remaining None)
  = Some <$> byteCharacters.
Proof.
  induction remaining as [|remaining IH]; intros i Hlen.
  - cbn. rewrite app_nil_r, take_ge by lia. reflexivity.
  - cbn [fill].
    destruct (byteCharacters !! i) as [c|] eqn:Ec;
      [|apply lookup_ge_None in Ec; lia].
    replace (<[i:=Some c]> ((Some <$> take i byteCharacters)
                            ++ replicate (S remaining) None))
      with ((Some <$> take (S i) byteCharacters) ++ replicate remaining None).
    + apply IH. lia.
    + rewrite (take_S_r _ _ _ Ec), fmap_app, <- app_assoc. cbn.
      rewrite insert_app_r_alt by (rewrite length_fmap, length_take; lia).
      rewrite length_fmap, length_take.
      replace (i - i `min` length byteCharacters)%nat with 0%nat by lia.
      reflexivity.
Qed.

(** X15: the buffer handed to the converters.  The loop fills every slot
    of the array, and the buffer has one byte per character of the decoded
    string: the character code modulo 256, which is the code itself for
    a string of codes below 256, as [atob] returns. *)
Theorem byteArray_is_the_decoded_string (byteCharacters : jsstring) :
  byteArray byteCharacters = Uint8Array byteCharacters /\
  length (byteArray byteCharacters) = length byteCharacters /\
  Forall (fun b => b < 256) (byteArray byteCharacters) /\
  (Forall (fun c => c < 256) byteCharacters ->
   byteArray byteCharacters = byteCharacters).
Proof.
  assert (Hb : byteArray byteCharacters = Uint8Array byteCharacters).
  { unfold byteArray. cbv zeta.
    pose proof (fill_spec byteCharacters (length byteCharacters) 0 eq_refl) as Hf.
    rewrite take_0, fmap_nil, app_nil_l in Hf. rewrite Hf.
    unfold Uint8Array_from, Uint8Array. by rewrite <- list_fmap_compose. }
  rewrite Hb. clear Hb. unfold Uint8Array. repeat split.
  - by rewrite length_fmap.
  - apply Forall_fmap, Forall_forall. intros c _. cbn.
    by apply N.mod_lt.
  - intros Hsmall. induction Hsmall as [|c l Hc _ IH]; [reflexivity|].
    cbn. rewrite N.mod_small by exact Hc. f_equal. exact IH.
Qed.

End ByteBuffer.

(** ** The further properties on examples *)

Section MoreExamples.
Import Stub Samples.

Lemma docx_message_shows_document_witness :
  let data := first_message in
  let bytes := lit "one" in
  let html := lit "<p>one</p>" in
  let text := lit "one" in
  let st := two_sheets in
  let st' := Viewer.run (Viewer.handleMessage data) st in
  Viewer.msg_type data = lit "FILE_DATA" /\
  Viewer.msg_fileType data = lit "docx" /\
  atob (Viewer.msg_fileData data) = Ok bytes /\
  mammoth_convertToHtml convertImage_imgElement (Uint8Array bytes) = Ok html /\
  mammoth_extractRawText (Uint8Array bytes) = Ok text /\
  st' = {| Viewer.fileData :=
             Some {| Viewer.type := Viewer.docx;
                     Viewer.fileName := Viewer.msg_fileName data;
                     Viewer.sheets := None |};
           Viewer.content := processedHtml html text;
           Viewer.excelSheets := Viewer.excelSheets st;
           Viewer.selectedSheetIndex := Viewer.selectedSheetIndex st;
           Viewer.loading := false; Viewer.error := None |} /\
  Viewer.render st' = Viewer.DocxScreen (processedHtml html text).
Proof.
  intros data bytes html text st st'.
  assert (H1 : Viewer.msg_type data = lit "FILE_DATA") by reflexivity.
  assert (H2 : Viewer.msg_fileType data = lit "docx") by reflexivity.
  assert (H3 : atob (Viewer.msg_fileData data) = Ok bytes) by reflexivity.
  assert (H4 : mammoth_convertToHtml convertImage_imgElement (Uint8Array bytes)
               = Ok html) by reflexivity.
  assert (H5 : mammoth_extractRawText (Uint8Array bytes) = Ok text)
    by reflexivity.
  exact (conj H1 (conj H2 (conj H3 (conj H4 (conj H5
    (docx_message_shows_document data bytes html text st
       H1 H2 H3 H4 H5)))))).
Defined.

Lemma xlsx_message_shows_first_sheet_witness :
  let data := workbook_message in
  let bytes := lit "1,2" in
  let workbook := {| SheetNames := [lit "Sheet1"];
                     Sheets := {[ lit "Sheet1" := bytes ]} |} in
  let sheets := [ {| name := lit "Sheet1"; html := lit "<table>1,2</table>" |} ] in
  let st := Viewer.setSelectedSheetIndex 1 two_sheets in
  let st' := Viewer.run (Viewer.handleMessage data) st in
  Viewer.msg_type data = lit "FILE_DATA" /\
  Viewer.msg_fileType data = lit "xlsx" /\
  atob (Viewer.msg_fileData data) = Ok bytes /\
  XLSX_read (Uint8Array bytes) = Ok workbook /\
  workbook_sheets workbook = Ok sheets /\
  st' = {| Viewer.fileData :=
             Some {| Viewer.type := Viewer.xlsx;
                     Viewer.fileName := Viewer.msg_fileName data;
                     Viewer.sheets := Some sheets |};
           Viewer.content := Viewer.content st;
           Viewer.excelSheets := sheets;
           Viewer.selectedSheetIndex := 0;
           Viewer.loading := false; Viewer.error := None |} /\
  Viewer.render st' =
    match sheets with
    | [] => Viewer.NoScreen
    | [only] => Viewer.XlsxScreen [] only
    | first :: _ :: _ =>
        Viewer.XlsxScreen (imap (fun idx sh => (idx, name sh)) sheets) first
    end.
Proof.
  intros data bytes workbook sheets st st'.
  assert (H1 : Viewer.msg_type data = lit "FILE_DATA") by reflexivity.
  assert (H2 : Viewer.msg_fileType data = lit "xlsx") by reflexivity.
  assert (H3 : atob (Viewer.msg_fileData data) = Ok bytes) by reflexivity.
  assert (H4 : XLSX_read (Uint8Array bytes) = Ok workbook) by reflexivity.
  assert (H5 : workbook_sheets workbook = Ok sheets) by reflexivity.
  exact (conj H1 (conj H2 (conj H3 (conj H4 (conj H5
    (xlsx_message_shows_first_sheet data bytes workbook sheets st
       H1 H2 H3 H4 H5)))))).
Defined.

Lemma sheet_screen_has_a_sheet_witness :
  let pg := Viewer.step (Viewer.Resume 1)
              (Viewer.step (Viewer.Deliver workbook_message)
                 (Viewer.step (Viewer.Deliver first_message) fresh_page)) in
  ViewerMore.reachable pg /\
  ViewerMore.index_in_bounds (Viewer.view pg) /\
  (forall err, Viewer.render (Viewer.view pg) <> Viewer.RenderThrows err) /\
  forall tabs currentSheet,
    Viewer.render (Viewer.view pg) = Viewer.XlsxScreen tabs currentSheet ->
    Viewer.excelSheets (Viewer.view pg)
      !! Viewer.selectedSheetIndex (Viewer.view pg) = Some currentSheet.
Proof.
  intros pg.
  assert (H1 : ViewerMore.reachable pg).
  { repeat apply ViewerMore.reachable_step. apply ViewerMore.reachable_start. }
  exact (conj H1 (sheet_screen_has_a_sheet pg H1)).
Defined.




Lemma upload_depends_on_lowered_name_witness :
  let file1 := report_pdf in
  let file2 := report_pdf_lower in
  let w := Uploader.start in
  let w1 := (Uploader.handleFileUpload (Some file1) w).1 in
  let w2 := (Uploader.handleFileUpload (Some file2) w).1 in
  toLowerCase (Uploader.file_name file1) = toLowerCase (Uploader.file_name file2) /\
  Uploader.file_arrayBuffer file1 = Uploader.file_arrayBuffer file2 /\
  Uploader.fileExtension file1 = Uploader.fileExtension file2 /\
  Uploader.fileContent (Uploader.ui w1) = Uploader.fileContent (Uploader.ui w2) /\
  Uploader.fileType (Uploader.ui w1) = Uploader.fileType (Uploader.ui w2) /\
  Uploader.error (Uploader.ui w1) = Uploader.error (Uploader.ui w2) /\
  Uploader.excelData (Uploader.ui w1) = Uploader.excelData (Uploader.ui w2) /\
  Uploader.isLoading (Uploader.ui w1) = Uploader.isLoading (Uploader.ui w2) /\
  Uploader.url_calls w1 = Uploader.url_calls w2.
Proof.
  intros file1 file2 w w1 w2.
  assert (H1 : toLowerCase (Uploader.file_name file1)
               = toLowerCase (Uploader.file_name file2)) by reflexivity.
  assert (H2 : Uploader.file_arrayBuffer file1 = Uploader.file_arrayBuffer file2)
    by reflexivity.
  exact (conj H1 (conj H2
    (upload_depends_on_lowered_name file1 file2 w H1 H2))).
Defined.

Lemma spinner_only_while_pending_witness :
  let pg := Viewer.step (Viewer.Deliver first_message) fresh_page in
  ViewerMore.reachable pg /\
  Viewer.render (Viewer.view pg) = Viewer.LoadingScreen /\
  (Viewer.view pg = Viewer.initial \/ ViewerMore.pending pg).
Proof.
  intros pg.
  assert (H1 : ViewerMore.reachable pg).
  { apply ViewerMore.reachable_step. apply ViewerMore.reachable_start. }
  assert (H2 : Viewer.render (Viewer.view pg) = Viewer.LoadingScreen)
    by reflexivity.
  exact (conj H1 (conj H2 (spinner_only_while_pending pg H1 H2))).
Defined.

Lemma delivered_load_shows_spinner_witness :
  let data := first_message in
  let byteCharacters := lit "one" in
  let pg := {| Viewer.view := two_sheets; Viewer.in_flight := [] |} in
  let pg' := Viewer.step (Viewer.Deliver data) pg in
  Viewer.msg_type data = lit "FILE_DATA" /\
  atob (Viewer.msg_fileData data) = Ok byteCharacters /\
  (Viewer.msg_fileType data = lit "docx" \/
   Viewer.msg_fileType data = lit "xlsx") /\
  Viewer.render (Viewer.view pg') = Viewer.LoadingScreen /\
  Viewer.error (Viewer.view pg') = None /\
  (exists later,
     Viewer.in_flight pg' = Viewer.in_flight pg ++ [later] /\ later <> []) /\
  (Viewer.msg_fileType data = lit "docx" ->
   Viewer.view pg' =
     {| Viewer.fileData := Viewer.fileData (Viewer.view pg);
        Viewer.content := Viewer.content (Viewer.view pg);
        Viewer.excelSheets := Viewer.excelSheets (Viewer.view pg);
        Viewer.selectedSheetIndex := Viewer.selectedSheetIndex (Viewer.view pg);
        Viewer.loading := true; Viewer.error := None |}).
Proof.
  intros data byteCharacters pg pg'.
  assert (H1 : Viewer.msg_type data = lit "FILE_DATA") by reflexivity.
  assert (H2 : atob (Viewer.msg_fileData data) = Ok byteCharacters)
    by reflexivity.
  assert (H3 : Viewer.msg_fileType data = lit "docx" \/
               Viewer.msg_fileType data = lit "xlsx")
    by (left; reflexivity).
  exact (conj H1 (conj H2 (conj H3
    (delivered_load_shows_spinner data byteCharacters pg H1 H2 H3)))).
Defined.

End MoreExamples.

Section FailingExamples.
Import Corrupt Samples.

Lemma failed_load_stores_nothing_witness :
  let data := Stub.first_message in
  let st := Stub.two_sheets in
  let err := ErrorObject (lit "Can't find end of central directory") in
  let message := message_or err (lit "Unknown error occurred") in
  let st' := Viewer.run (Viewer.handleMessage data) st in
  Viewer.msg_type data = lit "FILE_DATA" /\
  Viewer.settled (ViewerMore.try_block data) = Throw err /\
  st' = {| Viewer.fileData := Viewer.fileData st;
           Viewer.content := Viewer.content st;
           Viewer.excelSheets := Viewer.excelSheets st;
           Viewer.selectedSheetIndex := Viewer.selectedSheetIndex st;
           Viewer.loading := false; Viewer.error := Some message |} /\
  Viewer.render st' =
    match message with
    | [] => Viewer.render
              {| Viewer.fileData := Viewer.fileData st;
                 Viewer.content := Viewer.content st;
                 Viewer.excelSheets := Viewer.excelSheets st;
                 Viewer.selectedSheetIndex := Viewer.selectedSheetIndex st;
                 Viewer.loading := false; Viewer.error := None |}
    | _ :: _ => Viewer.ErrorScreen message
    end.
Proof.
  intros data st err message st'.
  assert (H1 : Viewer.msg_type data = lit "FILE_DATA") by reflexivity.
  assert (H2 : Viewer.settled (ViewerMore.try_block data) = Throw err)
    by reflexivity.
  exact (conj H1 (conj H2 (failed_load_stores_nothing data st err H1 H2))).
Defined.


End FailingExamples.

Section MixedExamples.
Import Picky.

(** Two loads overlap and the newer one fails.  The first load begins, the
    second begins and is rejected, and the first settles last: the view
    holds the document of the first load under the error of the second,
    and the screen is the error screen. *)
Example stale_document_under_newer_error :
  let pg := Viewer.steps
              [Viewer.Deliver Stub.first_message; Viewer.Deliver empty_message;
               Viewer.Resume 1; Viewer.Resume 1;
               Viewer.Resume 0; Viewer.Resume 0; Viewer.Resume 0]
              Stub.fresh_page in
  Viewer.in_flight pg = [[]; []] /\
  Viewer.content (Viewer.view pg) = lit "<p>one</p>" /\
  Viewer.fileName <$> Viewer.fileData (Viewer.view pg)
    = Some (lit "first.docx") /\
  Viewer.error (Viewer.view pg)
    = Some (lit "Can't find end of central directory") /\
  Viewer.render (Viewer.view pg)
    = Viewer.ErrorScreen (lit "Can't find end of central directory").
Proof. by repeat split. Qed.

End MixedExamples.
